(** * KvaserCAN: the channel session of [kvaser_can.py]

    A shallow embedding of the class [KvaserCAN] and of the part of the
    driver binding ([CANAPI]) it talks to, followed by the properties of
    the session's life cycle, of frame construction, of the channel scan
    and of the monitor loop.

    The driver, the bus, the wall clock and the caller's callback are
    outside the class.  They are modelled as operations on one abstract
    environment state [Env]: every theorem holds for every choice of these
    operations.  Every call that leaves the class is appended to a trace,
    together with what it returned.

    The model covers the executions in which the driver's functions and
    the callback return; Python exceptions raised inside them (and a
    [KeyboardInterrupt] arriving during [monitor]) are not modelled.  The
    two exceptions the class itself can cause in [send] are. *)

From Stdlib Require Import ZArith Bool Lia.
From Stdlib Require Import Strings.Byte.
From stdpp Require Import base list list_numbers sorting strings.

Local Open Scope Z_scope.

(** ** Values exchanged with the driver binding *)

(** [OpMode] is declared in [CANAPI]; the session writes its [byte] and,
    for the monitor mode, its [bits.mon]. *)
Record OpMode := { byte : Z; bits_mon : Z }.

(** [Bitrate] is declared in [CANAPI]; the session writes its [index]. *)
Record Bitrate := { index : Z }.

Record Flags := { xtd : Z; rtr : Z; fdf : Z; brs : Z; esi : Z }.

(** [Message] is declared in [CANAPI]: identifier, flags, data length
    code and a data buffer of fixed length. *)
Record Message := {
  msg_id : Z;
  msg_flags : Flags;
  msg_dlc : Z;
  msg_data : list Byte.byte
}.

(** Status codes imported from [CANAPI].  [0] is success (every docstring
    of the class); [-30] is the receive-queue-empty code (comment in
    [monitor]).  The not-initialized code [-95] is written as a literal in
    the class. *)
Definition CANERR_NOERROR : Z := 0.
Definition CANERR_RX_EMPTY : Z := -30.

(** The argument [data] of [send]: [Union[bytes, List[int]]]. *)
Inductive payload :=
| PBytes (b : list Byte.byte)
| PInts (l : list Z).

(** Exceptions the class itself can cause. *)
Inductive exn := ValueError | IndexError.

Inductive outcome (A : Type) :=
| Returns (a : A)
| Raises (e : exn).
Arguments Returns {A} a.
Arguments Raises {A} e.

(** ** The driver binding and the clock *)

(** The functions of [CANAPI] the class calls, as transitions of the
    environment.  [CANMODE_DEFAULT] and the length of [Message.data] are
    declared there too. *)
Class CANAPI (Env : Type) := {
  CANMODE_DEFAULT : Z;
  DATA_LEN : nat;
  api_init : Z -> OpMode -> Env -> Z * Env;
  api_start : Bitrate -> Env -> Z * Env;
  api_reset : Env -> Z * Env;
  api_exit : Env -> Z * Env;
  api_write : Message -> Z -> Env -> Z * Env;
  api_read : Z -> Env -> (Z * option Message) * Env;
  api_test : Z -> OpMode -> Env -> (Z * Z) * Env
}.

(** [time.time()], the subtraction of two readings and the comparison of
    an elapsed time with the integer [duration]. *)
Class Clock (Env : Type) := {
  Time : Type;
  time_time : Env -> Time * Env;
  time_sub : Time -> Time -> Time;
  time_lt : Time -> Z -> bool
}.

(** A callback of [monitor]: it receives the message returned by the
    driver and its result is tested for truth. *)
Definition Callback (Env : Type) : Type := option Message -> Env -> bool * Env.

(** ** Trace *)

Inductive event :=
| EvInit (channel : Z) (mode : OpMode) (result : Z)
| EvStart (bitrate : Bitrate) (result : Z)
| EvReset (result : Z)
| EvExit (result : Z)
| EvWrite (message : Message) (timeout : Z) (result : Z)
| EvRead (timeout : Z) (result : Z) (msg : option Message)
| EvTest (channel : Z) (mode : OpMode) (result state : Z)
| EvCallback (msg : option Message) (keep : bool).

Definition is_exit (e : event) : bool :=
  match e with EvExit _ => true | _ => false end.

(** A read that returned a frame. *)
Definition is_frame (e : event) : bool :=
  match e with EvRead _ r _ => r =? CANERR_NOERROR | _ => false end.

Definition is_callback (e : event) : bool :=
  match e with EvCallback _ _ => true | _ => false end.

Definition count_events (p : event -> bool) (t : list event) : Z :=
  Z.of_nat (length (List.filter p t)).

(** The channel and state code of a probe. *)
Definition probe_of (e : event) : option (Z * Z) :=
  match e with EvTest c _ _ st => Some (c, st) | _ => None end.

(** ** The session *)

(** The three fields [__init__] sets. *)
Record KvaserCAN := {
  channel : Z;
  is_initialized : bool;
  is_started : bool
}.

Inductive SessionState := Closed | Initialized | Started.

Definition session_state (s : KvaserCAN) : SessionState :=
  if is_started s then Started
  else if is_initialized s then Initialized
  else Closed.

Definition session_inv (s : KvaserCAN) : Prop :=
  (is_started s = true -> is_initialized s = true) /\
  (is_initialized s = false -> channel s = -1).

Section Session.
Context {Env : Type} `{api : CANAPI Env} `{clock : Clock Env}.

Record World := {
  self : KvaserCAN;
  env : Env;
  trace : list event
}.

(** [__init__]: an unbound session. *)
Definition init_world (e : Env) : World :=
  {| self := {| channel := -1; is_initialized := false; is_started := false |};
     env := e;
     trace := [] |}.

(** *** A state monad over the world *)

Definition M (A : Type) : Type := World -> A * World.

Definition ret {A} (a : A) : M A := fun w => (a, w).

Definition bind {A B} (m : M A) (k : A -> M B) : M B :=
  fun w => let (a, w') := m w in k a w'.

Notation "x <- m ;; k" := (bind m (fun x => k))
  (at level 100, m at next level, right associativity).
Notation "m ;;; k" := (bind m (fun _ => k))
  (at level 100, right associativity).

Definition get_self : M KvaserCAN := fun w => (self w, w).

Definition put_self (s : KvaserCAN) : M unit :=
  fun w => (tt, {| self := s; env := env w; trace := trace w |}).

Definition set_channel (c : Z) : M unit :=
  s <- get_self ;;
  put_self {| channel := c; is_initialized := is_initialized s;
              is_started := is_started s |}.

Definition set_is_initialized (b : bool) : M unit :=
  s <- get_self ;;
  put_self {| channel := channel s; is_initialized := b;
              is_started := is_started s |}.

Definition set_is_started (b : bool) : M unit :=
  s <- get_self ;;
  put_self {| channel := channel s; is_initialized := is_initialized s;
              is_started := b |}.

(** A call that leaves the class: run it on the environment and log it. *)
Definition extern {A} (f : Env -> A * Env) (log : A -> event) : M A :=
  fun w => let (a, e) := f (env w) in
           (a, {| self := self w; env := e; trace := trace w ++ [log a] |}).

Definition call_init (c : Z) (mode : OpMode) : M Z :=
  extern (api_init c mode) (EvInit c mode).
Definition call_start (b : Bitrate) : M Z :=
  extern (api_start b) (EvStart b).
Definition call_reset : M Z := extern api_reset EvReset.
Definition call_exit : M Z := extern api_exit EvExit.
Definition call_write (m : Message) (timeout : Z) : M Z :=
  extern (api_write m timeout) (EvWrite m timeout).
Definition call_read (timeout : Z) : M (Z * option Message) :=
  extern (api_read timeout) (fun r => EvRead timeout (fst r) (snd r)).
Definition call_test (c : Z) (mode : OpMode) : M (Z * Z) :=
  extern (api_test c mode) (fun r => EvTest c mode (fst r) (snd r)).
Definition call_callback (cb : Callback Env) (msg : option Message) : M bool :=
  extern (cb msg) (EvCallback msg).

(** The clock is read without logging. *)
Definition now : M Time :=
  fun w => let (t, e) := time_time (env w) in
           (t, {| self := self w; env := e; trace := trace w |}).

(** *** close *)

Definition close : M Z :=
  let result := CANERR_NOERROR in
  s <- get_self ;;
  result <- (if is_started s
             then r <- call_reset ;; set_is_started false ;;; ret r
             else ret result) ;;
  s <- get_self ;;
  result <- (if is_initialized s
             then r <- call_exit ;; set_is_initialized false ;;;
                  set_channel (-1) ;;; ret r
             else ret result) ;;
  ret result.

(** *** open *)

Definition open (channel : Z) (monitor_mode : bool) : M Z :=
  s <- get_self ;;
  (if is_initialized s then close ;;; ret tt else ret tt) ;;;
  let op_mode := {| byte := CANMODE_DEFAULT; bits_mon := 0 |} in
  let op_mode := if monitor_mode
                 then {| byte := byte op_mode; bits_mon := 1 |}
                 else op_mode in
  result <- call_init channel op_mode ;;
  (if result =? CANERR_NOERROR
   then set_channel channel ;;; set_is_initialized true
   else ret tt) ;;;
  ret result.

(** *** start *)

Definition start (bitrate_index : Z) : M Z :=
  s <- get_self ;;
  if negb (is_initialized s) then ret (-95)
  else
    let bit_rate := {| index := bitrate_index |} in
    result <- call_start bit_rate ;;
    (if result =? CANERR_NOERROR then set_is_started true else ret tt) ;;;
    ret result.

(** *** send *)

(** [Message()]: a zeroed structure. *)
Definition Message_new : Message :=
  {| msg_id := 0;
     msg_flags := {| xtd := 0; rtr := 0; fdf := 0; brs := 0; esi := 0 |};
     msg_dlc := 0;
     msg_data := replicate DATA_LEN x00 |}.

Definition byte_of_int (x : Z) : option Byte.byte :=
  if x <? 0 then None else Byte.of_N (Z.to_N x).

(** [bytes(data)] on a list of integers: [ValueError] unless every
    element is in [range(0, 256)]. *)
Fixpoint bytes_of_ints (l : list Z) : option (list Byte.byte) :=
  match l with
  | [] => Some []
  | x :: l' =>
      match byte_of_int x, bytes_of_ints l' with
      | Some b, Some bs => Some (b :: bs)
      | _, _ => None
      end
  end.

(** [if not isinstance(data, bytes): data = bytes(data)]. *)
Definition to_bytes (data : payload) : option (list Byte.byte) :=
  match data with
  | PBytes b => Some b
  | PInts l => bytes_of_ints l
  end.

(** [for i in range(data_len): msg.data[i] = data[i]]; an index outside
    either sequence raises [IndexError]. *)
Fixpoint copy_data (indices : list nat) (data buf : list Byte.byte)
  : option (list Byte.byte) :=
  match indices with
  | [] => Some buf
  | i :: rest =>
      match data !! i with
      | None => None
      | Some b =>
          if (i <? length buf)%nat
          then copy_data rest data (<[i := b]> buf)
          else None
      end
  end.

Definition flag (b : bool) : Z := if b then 1 else 0.

(** Assignments to the fields of a message. *)
Definition with_id (m : Message) (v : Z) : Message :=
  {| msg_id := v; msg_flags := msg_flags m; msg_dlc := msg_dlc m;
     msg_data := msg_data m |}.
Definition with_data (m : Message) (buf : list Byte.byte) : Message :=
  {| msg_id := msg_id m; msg_flags := msg_flags m; msg_dlc := msg_dlc m;
     msg_data := buf |}.
Definition with_dlc (m : Message) (v : Z) : Message :=
  {| msg_id := msg_id m; msg_flags := msg_flags m; msg_dlc := v;
     msg_data := msg_data m |}.
Definition with_flags (m : Message) (f : Flags) : Message :=
  {| msg_id := msg_id m; msg_flags := f; msg_dlc := msg_dlc m;
     msg_data := msg_data m |}.

Definition send (msg_id : Z) (data : payload)
    (extended_id remote_frame : bool) (timeout : Z) : M (outcome Z) :=
  s <- get_self ;;
  if negb (is_started s) then ret (Returns (-95))
  else
    let msg := Message_new in
    let msg := with_id msg msg_id in
    match to_bytes data with
    | None => ret (Raises ValueError)
    | Some data =>
        let data_len := length data in
        let '(data_len, data) :=
          if (8 <? data_len)%nat then (8%nat, take 8 data)
          else (data_len, data) in
        match copy_data (seq 0 data_len) data (msg_data msg) with
        | None => ret (Raises IndexError)
        | Some buf =>
            let msg := with_data msg buf in
            let msg := with_dlc msg (Z.of_nat data_len) in
            let msg := with_flags msg {| xtd := flag extended_id;
                                         rtr := flag remote_frame;
                                         fdf := 0; brs := 0; esi := 0 |} in
            r <- call_write msg timeout ;;
            ret (Returns r)
        end
    end.

(** *** receive *)

Definition receive (timeout : Z) : M (Z * option Message) :=
  s <- get_self ;;
  if negb (is_started s) then ret (-95, None)
  else call_read timeout.

(** *** scan_channels *)

Fixpoint scan_loop (channels : list Z) (available_channels : list Z)
  : M (list Z) :=
  match channels with
  | [] => ret available_channels
  | channel :: rest =>
      let op_mode := {| byte := CANMODE_DEFAULT; bits_mon := 0 |} in
      r <- call_test channel op_mode ;;
      let available_channels :=
        if snd r =? 0 then available_channels ++ [channel]
        else available_channels in
      scan_loop rest available_channels
  end.

(** [range(max_channels)] is [seqZ 0 max_channels]: empty when
    [max_channels <= 0]. *)
Definition scan_channels (max_channels : Z) : M (list Z) :=
  scan_loop (seqZ 0 max_channels) [].

(** *** monitor *)

Inductive ctl := Continue | Break.

(** The condition of the [while]. *)
Definition monitor_guard (duration : Z) (start_time : Time) : M bool :=
  t <- now ;;
  ret (time_lt (time_sub t start_time) duration).

(** The body of the [while]: one poll. *)
Definition monitor_body (callback : option (Callback Env)) (msg_count : Z)
  : M (ctl * Z) :=
  r <- call_read 100 ;;
  let '(result, msg) := r in
  if result =? CANERR_NOERROR then
    let msg_count := msg_count + 1 in
    match callback with
    | Some cb =>
        keep <- call_callback cb msg ;;
        if negb keep then ret (Break, msg_count)
        else ret (Continue, msg_count)
    | None => ret (Continue, msg_count)
    end
  else if negb (result =? CANERR_RX_EMPTY) then ret (Break, msg_count)
  else ret (Continue, msg_count).

(** The [while] loop, with fuel: [None] when the fuel runs out before the
    loop ends. *)
Fixpoint monitor_loop (fuel : nat) (duration : Z)
    (callback : option (Callback Env)) (start_time : Time) (msg_count : Z)
    (w : World) : option (Z * World) :=
  match fuel with
  | O => None
  | S fuel' =>
      let (go, w1) := monitor_guard duration start_time w in
      if go then
        let '((c, msg_count'), w2) := monitor_body callback msg_count w1 in
        match c with
        | Break => Some (msg_count', w2)
        | Continue =>
            monitor_loop fuel' duration callback start_time msg_count' w2
        end
      else Some (msg_count, w1)
  end.

Definition monitor (fuel : nat) (duration : Z)
    (callback : option (Callback Env)) (w : World) : option (Z * World) :=
  if negb (is_started (self w)) then Some (-95, w)
  else
    let msg_count := 0 in
    let (start_time, w0) := now w in
    monitor_loop fuel duration callback start_time msg_count w0.

(** The state after [k] polls none of which ended the loop. *)
Fixpoint monitor_polls (k : nat) (duration : Z)
    (callback : option (Callback Env)) (start_time : Time) (msg_count : Z)
    (w : World) : option (Z * World) :=
  match k with
  | O => Some (msg_count, w)
  | S k' =>
      let (go, w1) := monitor_guard duration start_time w in
      if go then
        let '((c, msg_count'), w2) := monitor_body callback msg_count w1 in
        match c with
        | Break => None
        | Continue =>
            monitor_polls k' duration callback start_time msg_count' w2
        end
      else None
  end.

(** ** Calls on a session and the states they reach *)

Inductive op :=
| OpOpen (channel : Z) (monitor_mode : bool)
| OpStart (bitrate_index : Z)
| OpClose
| OpSend (msg_id : Z) (data : payload) (extended_id remote_frame : bool)
         (timeout : Z)
| OpReceive (timeout : Z)
| OpScan (max_channels : Z)
| OpMonitor (duration : Z) (callback : option (Callback Env)).

(** [step o w w']: the call [o] on [w] ends (by a return or, for [send],
    by an exception) and leaves [w']. *)
Inductive step : op -> World -> World -> Prop :=
| step_open c m w : step (OpOpen c m) w (snd (open c m w))
| step_start b w : step (OpStart b) w (snd (start b w))
| step_close w : step OpClose w (snd (close w))
| step_send i d x r t w : step (OpSend i d x r t) w (snd (send i d x r t w))
| step_receive t w : step (OpReceive t) w (snd (receive t w))
| step_scan n w : step (OpScan n) w (snd (scan_channels n w))
| step_monitor d cb w fuel n w' :
    monitor fuel d cb w = Some (n, w') -> step (OpMonitor d cb) w w'.

Inductive reachable : World -> Prop :=
| reach_init e : reachable (init_world e)
| reach_step o w w' : reachable w -> step o w w' -> reachable w'.

End Session.

Arguments World Env : clear implicits.
Arguments M Env A : clear implicits.

(** ** What the claims are measured against *)

(** Modelled from the spec: the table of bit-rate presets is declared in
    [CANAPI], which is not part of the sources; the spec calls it "a fixed
    table of standard bit rates" selected by "small negative integers".
    The CAN API indexes run from 0 (1 Mbit/s) down to -8 (10 kbit/s); the
    sources name 0, -2 and -3. *)
Definition recognized_preset (bitrate_selector : Z) : bool :=
  (-8 <=? bitrate_selector) && (bitrate_selector <=? 0).

(** "The last non-zero status" of a sequence of steps, success when there
    is none: the accumulation the spec describes for [close]. *)
Definition last_nonzero (statuses : list Z) : Z :=
  fold_left (fun acc r => if r =? 0 then acc else r) statuses CANERR_NOERROR.

(** The events a call added to the trace. *)
Definition added {Env} (w w' : World Env) : list event :=
  drop (length (trace w)) (trace w').
Arguments added : simpl never.

(** The status of a driver call. *)
Definition status_of (e : event) : option Z :=
  match e with
  | EvInit _ _ r | EvStart _ r | EvReset r | EvExit r
  | EvWrite _ _ r | EvRead _ r _ | EvTest _ _ r _ => Some r
  | EvCallback _ _ => None
  end.

(** ** A scripted driver

    A fake transport in the sense of the spec's testable properties: fixed
    statuses for the life-cycle calls, a script of read results, a set of
    free channels, and a clock that advances by one at every reading. *)

Record Fake := {
  f_time : Z;
  f_reads : list (Z * option Message);
  f_init : Z;
  f_start : Z;
  f_reset : Z;
  f_exit : Z;
  f_write : Z;
  f_free : list Z
}.

Definition fake_read (e : Fake) : (Z * option Message) * Fake :=
  match f_reads e with
  | [] => ((CANERR_RX_EMPTY, None), e)
  | r :: rest =>
      (r, {| f_time := f_time e; f_reads := rest; f_init := f_init e;
             f_start := f_start e; f_reset := f_reset e; f_exit := f_exit e;
             f_write := f_write e; f_free := f_free e |})
  end.

Definition fake_tick (e : Fake) : Z * Fake :=
  (f_time e,
   {| f_time := f_time e + 1; f_reads := f_reads e; f_init := f_init e;
      f_start := f_start e; f_reset := f_reset e; f_exit := f_exit e;
      f_write := f_write e; f_free := f_free e |}).

Definition fake_test (c : Z) (e : Fake) : (Z * Z) * Fake :=
  if bool_decide (c ∈ f_free e) then ((0, 0), e) else ((-1, -1), e).

#[local] Instance fake_api : CANAPI Fake := {|
  CANMODE_DEFAULT := 0;
  DATA_LEN := 64;
  api_init := fun _ _ e => (f_init e, e);
  api_start := fun _ e => (f_start e, e);
  api_reset := fun e => (f_reset e, e);
  api_exit := fun e => (f_exit e, e);
  api_write := fun _ _ e => (f_write e, e);
  api_read := fun _ e => fake_read e;
  api_test := fun c _ e => fake_test c e
|}.

#[local] Instance fake_clock : Clock Fake := {|
  Time := Z;
  time_time := fake_tick;
  time_sub := Z.sub;
  time_lt := Z.ltb
|}.

(** A driver on which every call succeeds and nothing is ever received. *)
Definition fake_ok : Fake :=
  {| f_time := 0; f_reads := []; f_init := 0; f_start := 0; f_reset := 0;
     f_exit := 0; f_write := 0; f_free := [2; 5] |}.

(** A driver whose [reset] fails and whose [exit] succeeds. *)
Definition fake_reset_fails : Fake :=
  {| f_time := 0; f_reads := []; f_init := 0; f_start := 0; f_reset := -1;
     f_exit := 0; f_write := 0; f_free := [] |}.

Definition frame0 : Message :=
  {| msg_id := 688;
     msg_flags := {| xtd := 0; rtr := 0; fdf := 0; brs := 0; esi := 0 |};
     msg_dlc := 0;
     msg_data := replicate 64 x00 |}.

(** A driver that answers: empty, frame, frame, failure. *)
Definition fake_bus : Fake :=
  {| f_time := 0;
     f_reads := [(CANERR_RX_EMPTY, None); (0, Some frame0); (0, Some frame0);
                 (-1, None)];
     f_init := 0; f_start := 0; f_reset := 0; f_exit := 0; f_write := 0;
     f_free := [] |}.

Definition closed_on (e : Fake) : World Fake := init_world e.

Definition initialized_on (e : Fake) : World Fake :=
  {| self := {| channel := 0; is_initialized := true; is_started := false |};
     env := e; trace := [] |}.

Definition started_on (e : Fake) : World Fake :=
  {| self := {| channel := 0; is_initialized := true; is_started := true |};
     env := e; trace := [] |}.

(** Callbacks for the scripted driver. *)
Definition cb_stop : Callback Fake := fun _ e => (false, e).
Definition cb_go : Callback Fake := fun _ e => (true, e).

(** Stops at the second frame: goes on while the script still holds a frame
    after the one just read. *)
Definition cb_second : Callback Fake :=
  fun _ e => (bool_decide (1 < length (f_reads e))%nat, e).

(** The states of a [monitor] run of duration 10 on [fake_bus]: after the
    clock was read, after [k] polls, after the next test of the loop
    condition, after the next read, after the callback was called. *)
Definition bus_t0 : @Time Fake fake_clock := fst (now (started_on fake_bus)).

Definition bus_begun : World Fake := snd (now (started_on fake_bus)).

Definition bus_polled (k : nat) (cb : option (Callback Fake)) : World Fake :=
  default bus_begun (snd <$> monitor_polls k 10 cb bus_t0 0 bus_begun).

Definition bus_tested (k : nat) (cb : option (Callback Fake)) : World Fake :=
  snd (monitor_guard 10 bus_t0 (bus_polled k cb)).

Definition bus_read (k : nat) (cb : option (Callback Fake)) : World Fake :=
  snd (call_read 100 (bus_tested k cb)).

Definition bus_called (k : nat) (f : Callback Fake) (msg : option Message)
  : World Fake :=
  snd (call_callback f msg (bus_read k (Some f))).

(** ** The rest of the class *)

(** [__init__]: the driver library is the one named by the caller, or else
    the one of the platform ([system] is [platform.system()]). *)
Definition select_lib_name (lib_name : option string) (system : string)
  : string :=
  match lib_name with
  | Some name => name
  | None =>
      if String.eqb system "Darwin" then "libUVCANKVL.dylib"
      else if negb (String.eqb system "Windows") then "libuvcankvl.so.1"
      else "u3cankvl.dll"
  end.

(** The read-only queries of [CANAPI] behind [get_status], [get_busload]
    and [get_bitrate].  The types of their payloads are declared in
    [CANAPI]; [busload_zero] is the float [0.0]. *)
Class CANQuery (Env : Type) := {
  Status : Type;
  Busload : Type;
  Speed : Type;
  busload_zero : Busload;
  api_status : Env -> (Z * option Status) * Env;
  api_busload : Env -> (Z * Busload * option Status) * Env;
  api_bitrate : Env -> (Z * option Bitrate * option Speed) * Env
}.

(** What the script does besides calling the class and reading the clock:
    [time.sleep(CYCLE)].  Its [print]s have no effect on what follows and
    are left out. *)
Class Host (Env : Type) := {
  time_sleep : Env -> Env
}.

Section Rest.
Context {Env : Type} `{api : CANAPI Env} `{clock : Clock Env}
        `{query : CANQuery Env} `{host : Host Env}.

Notation "x <- m ;; k" := (bind m (fun x => k))
  (at level 100, m at next level, right associativity).

(** A read-only query: run on the environment, not logged. *)
Definition ask {A} (f : Env -> A * Env) : M Env A :=
  fun w => let (a, e) := f (env w) in
           (a, {| self := self w; env := e; trace := trace w |}).

Definition get_status : M Env (Z * option Status) :=
  s <- get_self ;;
  if negb (is_initialized s) then ret (-95, None)
  else ask api_status.

Definition get_busload : M Env (Z * Busload * option Status) :=
  s <- get_self ;;
  if negb (is_initialized s) then ret (-95, busload_zero, None)
  else ask api_busload.

Definition get_bitrate : M Env (Z * option Bitrate * option Speed) :=
  s <- get_self ;;
  if negb (is_initialized s) then ret (-95, None, None)
  else ask api_bitrate.

(** [__del__]: closes and returns nothing. *)
Definition del : M Env unit := bind close (fun _ => ret tt).

(** ** The script [ID2B0_Dos_attack.py] *)

(** The constants at the head of [main]. *)
Record Settings := {
  CHANNEL : Z;
  TRANSMIT : Z;
  ID : Z;
  DLC : Z;
  BAUDRATE : Z
}.

Definition main_settings : Settings :=
  {| CHANNEL := 0; TRANSMIT := 9999999; ID := 688; DLC := 8;
     BAUDRATE := -2 |}.

Definition sleep : M Env unit :=
  fun w => (tt, {| self := self w; env := time_sleep (env w);
                   trace := trace w |}).

(** The [while count < TRANSMIT] loop; the result is [count], or the
    exception [send] raised.  [None] when the fuel runs out first. *)
Fixpoint transmit_loop (fuel : nat) (cfg : Settings) (data : payload)
    (count : Z) (w : World Env) : option (outcome Z * World Env) :=
  match fuel with
  | O => None
  | S fuel' =>
      if count <? TRANSMIT cfg then
        let (r, w1) := send (ID cfg) data false false 0 w in
        match r with
        | Raises x => Some (Raises x, w1)
        | Returns result =>
            if result <? 0 then Some (Returns count, w1)
            else
              let count := count + 1 in
              let w2 := if count mod 1000 =? 0 then snd (now w1) else w1 in
              let w3 := snd (sleep w2) in
              transmit_loop fuel' cfg data count w3
        end
      else Some (Returns count, w)
  end.

(** [main], for any values of its constants, on a fresh session.  The
    loop is given fuel for [TRANSMIT + 1] tests of its condition. *)
Definition main_with (cfg : Settings) (e : Env)
  : option (outcome Z * World Env) :=
  let can := init_world e in
  let (channels, w) := scan_channels 8 can in
  match channels with
  | [] => Some (Returns 1, w)
  | first :: _ =>
      let chosen := if existsb (Z.eqb (CHANNEL cfg)) channels
                    then CHANNEL cfg else first in
      let (result, w) := open chosen false w in
      if result <? 0 then Some (Returns 1, w)
      else
        let (result, w) := start (BAUDRATE cfg) w in
        if result <? 0 then
          let (_, w) := close w in Some (Returns 1, w)
        else
          let data := PInts (replicate (Z.to_nat (DLC cfg)) 255) in
          let (start_time, w) := now w in
          match transmit_loop (S (Z.to_nat (TRANSMIT cfg))) cfg data 0 w with
          | None => None
          | Some (r, w) =>
              let (_, w) := now w in
              let (_, w) := close w in
              Some (match r with
                    | Raises x => Raises x
                    | Returns _ => Returns 0
                    end, w)
          end
  end.

Definition main : Env -> option (outcome Z * World Env) :=
  main_with main_settings.

End Rest.

(** ** The order of calls the driver expects *)

(** The session the driver can infer from one more call, [None] when the
    call is out of order: [init] only on an unbound channel, [start] only
    on a bound one, [reset], [write], [read] and the callback only while
    started, [exit] only on a bound channel that is not started. *)
Definition accept (s : KvaserCAN) (e : event) : option KvaserCAN :=
  match e with
  | EvInit c _ r =>
      if is_initialized s || is_started s then None
      else Some (if r =? CANERR_NOERROR
                 then {| channel := c; is_initialized := true;
                         is_started := false |}
                 else s)
  | EvStart _ r =>
      if is_initialized s
      then Some {| channel := channel s; is_initialized := true;
                   is_started := (r =? CANERR_NOERROR) || is_started s |}
      else None
  | EvReset _ =>
      if is_started s
      then Some {| channel := channel s; is_initialized := is_initialized s;
                   is_started := false |}
      else None
  | EvExit _ =>
      if is_initialized s && negb (is_started s)
      then Some {| channel := -1; is_initialized := false;
                   is_started := false |}
      else None
  | EvWrite _ _ _ | EvRead _ _ _ | EvCallback _ _ =>
      if is_started s then Some s else None
  | EvTest _ _ _ _ => Some s
  end.

Fixpoint replay (s : KvaserCAN) (t : list event) : option KvaserCAN :=
  match t with
  | [] => Some s
  | e :: t' =>
      match accept s e with
      | Some s' => replay s' t'
      | None => None
      end
  end.

Definition unbound : KvaserCAN :=
  {| channel := -1; is_initialized := false; is_started := false |}.

(** The frames written, in order. *)
Definition written (t : list event) : list (Message * Z) :=
  omap (fun e => match e with
                 | EvWrite m _ r => Some (m, r)
                 | _ => None
                 end) t.

(** The channels bound with success, in order. *)
Definition bound_channels (t : list event) : list Z :=
  omap (fun e => match e with
                 | EvInit c _ r => if r =? CANERR_NOERROR then Some c else None
                 | _ => None
                 end) t.

Definition is_init (e : event) : bool :=
  match e with EvInit _ _ _ => true | _ => false end.


(** The frame [send] builds from the identifier, the payload bytes and
    the two flags. *)
Definition frame_of `{CANAPI Env} (msg_id : Z) (bs : list Byte.byte)
    (extended_id remote_frame : bool) : Message :=
  let n := Nat.min (length bs) 8 in
  {| msg_id := msg_id;
     msg_flags := {| xtd := flag extended_id; rtr := flag remote_frame;
                     fdf := 0; brs := 0; esi := 0 |};
     msg_dlc := Z.of_nat n;
     msg_data := take n bs ++ drop n (replicate DATA_LEN x00) |}.

(** [list(bs)]: the integers of a byte string. *)
Definition ints_of_bytes (bs : list Byte.byte) : list Z :=
  map (fun b => Z.of_N (Byte.to_N b)) bs.

(** ** The scripted driver, continued *)

#[local] Instance fake_query : CANQuery Fake := {|
  Status := Z;
  Busload := Z;
  Speed := Z;
  busload_zero := 0;
  api_status := fun e => ((0, Some 0), e);
  api_busload := fun e => ((0, 0, Some 0), e);
  api_bitrate := fun e => ((0, Some {| index := -2 |}, Some 500000), e)
|}.

#[local] Instance fake_host : Host Fake := {|
  time_sleep := fun e => snd (fake_tick e)
|}.

(** A driver whose third write fails. *)
Definition fake_third_write_fails_api : CANAPI Fake := {|
  CANMODE_DEFAULT := 0;
  DATA_LEN := 64;
  api_init := fun _ _ e => (0, e);
  api_start := fun _ e => (0, e);
  api_reset := fun e => (0, e);
  api_exit := fun e => (0, e);
  api_write := fun _ _ e => (if f_time e <? 5 then 0 else -20, snd (fake_tick e));
  api_read := fun _ e => fake_read e;
  api_test := fun c _ e => fake_test c e
|}.

Definition small_settings : Settings :=
  {| CHANNEL := 0; TRANSMIT := 3; ID := 688; DLC := 8; BAUDRATE := -2 |}.

(** * Properties *)

(** Unfolds the monadic plumbing down to the calls on the environment. *)
Ltac run :=
  cbv [bind ret get_self put_self set_channel set_is_initialized
       set_is_started extern call_init call_start call_reset call_exit
       call_write call_read call_test call_callback now].

Section Lifecycle.
Context {Env : Type} `{api : CANAPI Env}.
Implicit Types (w : World Env) (s : KvaserCAN).

Lemma session_state_started s :
  session_state s <> Started -> is_started s = false.
Proof.
  unfold session_state. destruct (is_started s); [congruence | reflexivity].
Qed.

Lemma session_state_open s :
  session_inv s -> session_state s <> Closed -> is_initialized s = true.
Proof.
  intros [Hinv _]. unfold session_state.
  destruct (is_started s), (is_initialized s); auto; congruence.
Qed.

(** What [close] does, in terms of the driver's two transitions. *)
Lemma close_unfold w :
  close w =
  let '(r1, e1) := if is_started (self w) then api_reset (env w)
                   else (CANERR_NOERROR, env w) in
  let '(r2, e2) := if is_initialized (self w) then api_exit e1
                   else (r1, e1) in
  (r2,
   {| self := {| channel := if is_initialized (self w) then -1
                            else channel (self w);
                 is_initialized := false;
                 is_started := false |};
      env := e2;
      trace := trace w
               ++ (if is_started (self w) then [EvReset r1] else [])
               ++ (if is_initialized (self w) then [EvExit r2] else []) |}).
Proof.
  destruct w as [[c i s] e t]. unfold close. run. cbn.
  destruct s, i; cbn.
  - destruct (api_reset e) as [r1 e1]; cbn.
    destruct (api_exit e1) as [r2 e2]; cbn.
    rewrite <- app_assoc. reflexivity.
  - destruct (api_reset e) as [r1 e1]; cbn. reflexivity.
  - destruct (api_exit e) as [r2 e2]; cbn. reflexivity.
  - rewrite app_nil_r. reflexivity.
Qed.

Lemma added_app w w' t : trace w' = trace w ++ t -> added w w' = t.
Proof. unfold added. intros ->. apply drop_app_length. Qed.

(** C1. On a session that is not Started, [send] returns -95 and [receive]
    returns (-95, None); neither changes the world, so the trace gains no
    event: no call reaches [api.write] or [api.read]. *)
Theorem send_receive_not_started w msg_id data extended_id remote_frame
    timeout :
  session_state (self w) <> Started ->
  send msg_id data extended_id remote_frame timeout w = (Returns (-95), w)
  /\ receive timeout w = ((-95, None), w)
  /\ added w (snd (send msg_id data extended_id remote_frame timeout w)) = []
  /\ added w (snd (receive timeout w)) = [].
Proof.
  intros Hs. apply session_state_started in Hs.
  assert (Hsend : send msg_id data extended_id remote_frame timeout w
                  = (Returns (-95), w)).
  { unfold send. run. rewrite Hs. reflexivity. }
  assert (Hrecv : receive timeout w = ((-95, None), w)).
  { unfold receive. run. rewrite Hs. reflexivity. }
  rewrite Hsend, Hrecv. cbn.
  repeat split; apply added_app; symmetry; apply app_nil_r.
Qed.

(** C3, as amended.  On a session whose [is_initialized] is set, [start]
    rejects no selector: it calls the driver's start once with the selector
    it was given and returns the driver's status; the session is started
    exactly when that status is 0. *)
Theorem start_delegates w bitrate_index :
  is_initialized (self w) = true ->
  exists r e',
    api_start {| index := bitrate_index |} (env w) = (r, e')
    /\ fst (start bitrate_index w) = r
    /\ added w (snd (start bitrate_index w))
       = [EvStart {| index := bitrate_index |} r]
    /\ env (snd (start bitrate_index w)) = e'
    /\ is_started (self (snd (start bitrate_index w)))
       = (r =? CANERR_NOERROR) || is_started (self w).
Proof.
  intros Hi. destruct w as [[c i s] e t]. cbn in Hi. subst i.
  unfold start. run. cbn.
  destruct (api_start {| index := bitrate_index |} e) as [r e'].
  exists r, e'. split; [reflexivity|].
  destruct (r =? CANERR_NOERROR); cbn;
    (repeat split; [apply added_app; reflexivity]).
Qed.

(** C4, as amended.  [close] calls [reset] exactly when the session is
    started, then [exit] exactly when it is initialized, whatever [reset]
    returned, and returns the status of the last call it made (success
    when it made none); the session is Closed afterwards. *)
Theorem close_steps w :
  let r1 := fst (api_reset (env w)) in
  let e1 := if is_started (self w) then snd (api_reset (env w)) else env w in
  let r2 := fst (api_exit e1) in
  added w (snd (close w))
  = (if is_started (self w) then [EvReset r1] else [])
    ++ (if is_initialized (self w) then [EvExit r2] else [])
  /\ fst (close w)
     = (if is_initialized (self w) then r2
        else if is_started (self w) then r1
        else CANERR_NOERROR)
  /\ session_state (self (snd (close w))) = Closed.
Proof.
  cbv zeta. rewrite close_unfold.
  destruct (api_reset (env w)) as [r1 e1]. cbn [fst snd].
  destruct (is_started (self w)), (is_initialized (self w)).
  - destruct (api_exit e1) as [r2 e2].
    split; [apply added_app; reflexivity | split; reflexivity].
  - split; [apply added_app; reflexivity | split; reflexivity].
  - destruct (api_exit (env w)) as [r2 e2].
    split; [apply added_app; reflexivity | split; reflexivity].
  - split; [apply added_app; reflexivity | split; reflexivity].
Qed.

(** C5. After [close] the session is Closed; a second [close] returns
    success and leaves the world as it is, so it makes no call; over the
    two calls [exit] is called at most once.  The second call succeeds
    whatever the first returned, in particular when the first succeeded. *)
Theorem close_idempotent w :
  let w1 := snd (close w) in
  self w1 = {| channel := if is_initialized (self w) then -1
                          else channel (self w);
               is_initialized := false; is_started := false |}
  /\ session_state (self w1) = Closed
  /\ close w1 = (CANERR_NOERROR, w1)
  /\ added w1 (snd (close w1)) = []
  /\ count_events is_exit (added w (snd (close w1))) <= 1.
Proof.
  intros w1.
  assert (H2 : close w1 = (CANERR_NOERROR, w1)).
  { subst w1. rewrite (close_unfold (snd (close w))).
    rewrite (close_unfold w).
    destruct (if is_started (self w) then api_reset (env w)
              else (CANERR_NOERROR, env w)) as [r1 e1].
    destruct (if is_initialized (self w) then api_exit e1
              else (r1, e1)) as [r2 e2].
    cbn. rewrite app_nil_r. reflexivity. }
  rewrite H2. cbn. subst w1. rewrite (close_unfold w).
  destruct (if is_started (self w) then api_reset (env w)
            else (CANERR_NOERROR, env w)) as [r1 e1].
  destruct (if is_initialized (self w) then api_exit e1
            else (r1, e1)) as [r2 e2].
  cbn. repeat split.
  - apply added_app. cbn. symmetry. apply app_nil_r.
  - erewrite added_app by reflexivity. unfold count_events.
    destruct (is_started (self w)), (is_initialized (self w)); cbn; lia.
Qed.

(** C6. On a session that is not Closed, [open] closes the previous
    binding before it binds the new channel: the driver sees [reset] (when
    the session was started), then [exit], then the new [init], and the
    status of [init] is what [open] returns. *)
Theorem open_closes_first w channel monitor_mode :
  session_inv (self w) ->
  session_state (self w) <> Closed ->
  exists r1 r2 r3 mode,
    added w (snd (open channel monitor_mode w))
    = (if is_started (self w) then [EvReset r1] else [])
      ++ [EvExit r2; EvInit channel mode r3]
    /\ added w (snd (close w))
       = (if is_started (self w) then [EvReset r1] else []) ++ [EvExit r2]
    /\ session_state (self (snd (close w))) = Closed
    /\ fst (open channel monitor_mode w) = r3.
Proof.
  intros Hinv Hs. pose proof (session_state_open _ Hinv Hs) as Hi.
  pose proof (close_unfold w) as Hc. rewrite Hi in Hc.
  unfold open. run. rewrite Hi. fold (close w).
  destruct (if is_started (self w) then api_reset (env w)
            else (CANERR_NOERROR, env w)) as [r1 e1].
  destruct (api_exit e1) as [r2 e2]. rewrite Hc. cbn.
  match goal with |- context [api_init channel ?m e2] =>
    destruct (api_init channel m e2) as [r3 e3]; exists r1, r2, r3, m end.
  destruct (r3 =? CANERR_NOERROR); cbn; repeat split;
    apply added_app; rewrite <- ?app_assoc; reflexivity.
Qed.

End Lifecycle.

Section Scan.
Context {Env : Type} `{api : CANAPI Env}.
Implicit Types (w : World Env).

Lemma seqZ_sorted (n : nat) : forall m, StronglySorted Z.lt (seqZ m (Z.of_nat n)).
Proof.
  induction n as [|n IH]; intros m.
  - rewrite seqZ_nil by lia. constructor.
  - rewrite seqZ_cons by lia.
    replace (Z.pred (Z.of_nat (S n))) with (Z.of_nat n) by lia.
    constructor; [apply IH|].
    apply Forall_seqZ. lia.
Qed.

Lemma range_sorted (m n : Z) : StronglySorted Z.lt (seqZ m n).
Proof.
  destruct (Z_le_gt_dec n 0) as [Hn|Hn].
  - rewrite seqZ_nil by lia. constructor.
  - rewrite <- (Z2Nat.id n) by lia. apply seqZ_sorted.
Qed.

Lemma filter_fst_Forall {A B} (P : A -> Prop) (p : A * B -> bool)
    (l : list (A * B)) :
  Forall P (map fst l) -> Forall P (map fst (List.filter p l)).
Proof.
  induction l as [|x l IH]; cbn; intros H; [constructor|].
  inversion H; subst. destruct (p x); cbn; auto.
Qed.

Lemma filter_fst_sorted {A B} (R : A -> A -> Prop) (p : A * B -> bool)
    (l : list (A * B)) :
  StronglySorted R (map fst l) ->
  StronglySorted R (map fst (List.filter p l)).
Proof.
  induction l as [|x l IH]; cbn; intros H; [constructor|].
  inversion H; subst. destruct (p x); cbn; auto.
  constructor; auto. apply filter_fst_Forall; assumption.
Qed.

Lemma omap_probe_cons c m r st (t : list event) :
  omap probe_of (EvTest c m r st :: t) = (c, st) :: omap probe_of t.
Proof. reflexivity. Qed.

(** The loop of [scan_channels], from any point on. *)
Lemma scan_loop_spec (channels : list Z) :
  forall (available : list Z) w,
  exists t,
    trace (snd (scan_loop channels available w)) = trace w ++ t
    /\ length (omap probe_of t) = length t
    /\ map fst (omap probe_of t) = channels
    /\ fst (scan_loop channels available w)
       = available
         ++ map fst (List.filter (fun p => snd p =? 0) (omap probe_of t))
    /\ self (snd (scan_loop channels available w)) = self w.
Proof.
  induction channels as [|c rest IH]; intros available w.
  - exists []. cbn. rewrite !app_nil_r. auto.
  - cbn [scan_loop]. run.
    destruct (api_test c _ (env w)) as [[r st] e'] eqn:E. cbn [fst snd].
    match goal with |- context [scan_loop rest ?a ?w1] =>
      destruct (IH a w1) as (t & Ht & Hlen & Hch & Hres & Hself) end.
    exists (EvTest c {| byte := CANMODE_DEFAULT; bits_mon := 0 |} r st :: t).
    rewrite Ht, Hres, Hself, omap_probe_cons. cbn [trace self length map fst].
    rewrite <- app_assoc. cbn [app].
    split; [reflexivity|]. split; [congruence|].
    split; [congruence|]. split; [|reflexivity].
    cbn [List.filter snd].
    destruct (st =? 0); cbn [map fst]; rewrite <- ?app_assoc; reflexivity.
Qed.

(** C7. [scan_channels max_channels] calls the driver's probe once on each
    of the indices 0, ..., [max_channels - 1], in that order, and nothing
    else; it returns the indices whose probe answered state code 0, in
    ascending order (so the empty list when none did), and leaves the three
    fields of the session as they were. *)
Theorem scan_channels_spec w (max_channels : Z) :
  let found := fst (scan_channels max_channels w) in
  let w' := snd (scan_channels max_channels w) in
  let probes := omap probe_of (added w w') in
  length probes = length (added w w')
  /\ map fst probes = seqZ 0 max_channels
  /\ found = map fst (List.filter (fun p => snd p =? 0) probes)
  /\ StronglySorted Z.lt found
  /\ self w' = self w.
Proof.
  cbv zeta. unfold scan_channels.
  destruct (scan_loop_spec (seqZ 0 max_channels) [] w)
    as (t & Ht & Hlen & Hch & Hres & Hself).
  rewrite (added_app _ _ _ Ht), Hres. cbn [app].
  repeat split; auto.
  apply filter_fst_sorted. rewrite Hch. apply range_sorted.
Qed.

(** When the probe does not change the environment, the result is the
    filter of the range by the probe. *)
Lemma scan_channels_pure w (max_channels : Z) (probe : Z -> Z * Z) :
  (forall c m, api_test c m (env w) = (probe c, env w)) ->
  fst (scan_channels max_channels w)
  = List.filter (fun c => snd (probe c) =? 0) (seqZ 0 max_channels).
Proof.
  intros Hp. unfold scan_channels.
  assert (G : forall cs acc t,
    fst (scan_loop cs acc
           {| self := self w; env := env w; trace := t |})
    = acc ++ List.filter (fun c => snd (probe c) =? 0) cs).
  { induction cs as [|c cs IH]; intros acc t.
    - cbn. symmetry. apply app_nil_r.
    - cbn [scan_loop]. run. cbn [env self trace]. rewrite Hp. cbn [fst snd].
      rewrite IH. cbn [List.filter].
      destruct (snd (probe c) =? 0); rewrite <- ?app_assoc; reflexivity. }
  destruct w as [s e t]. apply (G _ [] t).
Qed.

End Scan.

Section Frames.
Context {Env : Type} `{api : CANAPI Env}.
Implicit Types (w : World Env) (bs buf : list Byte.byte).

(** The copy loop over [range(k, k + n)] overwrites that slice of the
    buffer with the same slice of the data. *)
Lemma copy_data_slice (n : nat) :
  forall (k : nat) bs buf,
    (k + n <= length bs)%nat ->
    (k + n <= length buf)%nat ->
    copy_data (seq k n) bs buf
    = Some (take k buf ++ take n (drop k bs) ++ drop (k + n) buf).
Proof.
  induction n as [|n IH]; intros k bs buf Hbs Hbuf.
  - cbn [seq copy_data]. rewrite Nat.add_0_r, take_0. cbn [app].
    rewrite take_drop. reflexivity.
  - cbn [seq copy_data].
    destruct (lookup_lt_is_Some_2 bs k) as [b Hb]; [lia|]. rewrite Hb.
    assert (Hlt : (k <? length buf)%nat = true) by (apply Nat.ltb_lt; lia).
    rewrite Hlt, IH by (rewrite ?length_insert; lia).
    rewrite (take_S_r _ k b) by (apply list_lookup_insert_eq; lia).
    rewrite take_insert_ge by lia.
    rewrite drop_insert_lt by lia.
    rewrite (drop_S bs b k Hb).
    rewrite <- app_assoc. cbn [app take].
    replace (S k + n)%nat with (k + S n)%nat by lia. reflexivity.
Qed.

Lemma copy_data_prefix (n : nat) bs buf :
  (n <= length bs)%nat -> (n <= length buf)%nat ->
  copy_data (seq 0 n) bs buf = Some (take n bs ++ drop n buf).
Proof.
  intros Hbs Hbuf. rewrite copy_data_slice by (cbn; lia).
  rewrite take_0, drop_0. reflexivity.
Qed.

(** [bytes(data)] succeeds exactly on lists of integers in [range(256)]. *)
Lemma byte_of_int_is_Some (x : Z) : is_Some (byte_of_int x) <-> 0 <= x < 256.
Proof.
  unfold byte_of_int. destruct (Z.ltb_spec x 0) as [Hx|Hx].
  - split; [intros [b Hb]; discriminate | lia].
  - split.
    + intros [b Hb]. pose proof (@Byte.to_of_N _ _ Hb) as Hx'.
      pose proof (Byte.to_N_bounded b). lia.
    + intros Hr. destruct (Byte.of_N (Z.to_N x)) as [b|] eqn:E; [eauto|].
      apply Byte.of_N_None_iff in E. lia.
Qed.

Lemma bytes_of_ints_is_Some (l : list Z) :
  is_Some (bytes_of_ints l) <-> Forall (fun x => 0 <= x < 256) l.
Proof.
  induction l as [|x l IH]; cbn.
  - split; [constructor | eauto].
  - rewrite Forall_cons, <- IH, <- byte_of_int_is_Some.
    destruct (byte_of_int x), (bytes_of_ints l); split;
      try (intros [? ?]; discriminate); try (intros [[? ?] [? ?]]; discriminate);
      eauto.
Qed.

(** C2. On a started session, for a payload [bs] given as bytes (or as a
    list of integers that [bytes()] accepts), [send] returns what the
    driver's write returns and the frame it hands over has dlc
    [min (len bs) 8] and carries the first [min (len bs) 8] bytes of [bs]:
    dlc 8 and the first 8 bytes when [bs] is longer than 8, the whole of
    [bs] otherwise; the rest of the data buffer stays zero. *)
Theorem send_truncates w (mid : Z) (data : payload) bs
    (extended_id remote_frame : bool) (timeout : Z) :
  session_state (self w) = Started ->
  to_bytes data = Some bs ->
  (8 <= DATA_LEN)%nat ->
  let n := Nat.min (length bs) 8 in
  exists msg status e',
    api_write msg timeout (env w) = (status, e')
    /\ send mid data extended_id remote_frame timeout w
       = (Returns status,
          {| self := self w; env := e';
             trace := trace w ++ [EvWrite msg timeout status] |})
    /\ msg_dlc msg = Z.of_nat n
    /\ take n (msg_data msg) = take 8 bs
    /\ drop n (msg_data msg) = replicate (DATA_LEN - n) x00
    /\ ((8 < length bs)%nat ->
        msg_dlc msg = 8 /\ take 8 (msg_data msg) = take 8 bs)
    /\ ((length bs <= 8)%nat ->
        msg_dlc msg = Z.of_nat (length bs)
        /\ take (length bs) (msg_data msg) = bs).
Proof.
  intros Hs Hb Hcap n.
  assert (Hst : is_started (self w) = true).
  { unfold session_state in Hs. destruct (is_started (self w)); [reflexivity|].
    destruct (is_initialized (self w)); discriminate. }
  unfold send. run. rewrite Hst, Hb. cbn [negb].
  set (p := if (8 <? length bs)%nat then (8%nat, take 8 bs)
            else (length bs, bs)).
  assert (Hp : p = (n, take 8 bs)).
  { subst p n. destruct (Nat.ltb_spec 8 (length bs)) as [H|H].
    - rewrite Nat.min_r by lia. reflexivity.
    - rewrite Nat.min_l by lia. rewrite take_ge by lia. reflexivity. }
  rewrite Hp. clear p Hp.
  assert (Hn : (n <= 8)%nat) by (subst n; lia).
  assert (Hlen : length (take 8 bs) = n).
  { subst n. rewrite length_take. lia. }
  cbn [msg_data Message_new with_id].
  rewrite copy_data_prefix by (rewrite ?length_replicate; lia).
  rewrite take_take, Nat.min_l by lia.
  match goal with |- context [api_write ?m timeout (env w)] =>
    set (msg := m); destruct (api_write msg timeout (env w)) as [status e']
      eqn:E; exists msg, status, e' end.
  assert (Htake : take n (msg_data msg) = take 8 bs).
  { subst msg. cbn [msg_data with_id with_data with_dlc with_flags].
    rewrite take_app_length' by (rewrite length_take; subst n; lia).
    subst n. rewrite <- (take_take bs). apply take_ge.
    rewrite length_take. lia. }
  split; [exact E|]. split; [reflexivity|]. split; [reflexivity|].
  split; [exact Htake|]. split.
  { subst msg. cbn [msg_data with_id with_data with_dlc with_flags].
    rewrite drop_app_length' by (rewrite length_take; subst n; lia).
    apply drop_replicate. }
  split.
  - intros Hgt. assert (n = 8%nat) as Hn8 by (subst n; lia).
    rewrite Hn8 in Htake. split; [|exact Htake].
    subst msg. cbn [msg_dlc with_id with_data with_dlc with_flags]. lia.
  - intros Hle. assert (n = length bs) as Hnl by (subst n; lia).
    rewrite Hnl in Htake. rewrite (take_ge bs 8) in Htake by lia.
    split; [|exact Htake]. subst msg. cbn [msg_dlc with_id with_data with_dlc with_flags]. lia.
Qed.

End Frames.

Section Monitor.
Context {Env : Type} `{api : CANAPI Env} `{clock : Clock Env}.
Implicit Types (w : World Env) (cb : option (Callback Env)).

Lemma count_events_app p (t1 t2 : list event) :
  count_events p (t1 ++ t2) = count_events p t1 + count_events p t2.
Proof.
  unfold count_events. rewrite List.filter_app, length_app. lia.
Qed.

Lemma count_events_nonneg p (t : list event) : 0 <= count_events p t.
Proof. unfold count_events. lia. Qed.

Lemma call_read_trace timeout w r msg w1 :
  call_read timeout w = ((r, msg), w1) ->
  trace w1 = trace w ++ [EvRead timeout r msg] /\ self w1 = self w.
Proof.
  run. destruct (api_read timeout (env w)) as [[r' m'] e'].
  intros [= <- <- <-]. cbn. auto.
Qed.

Lemma call_callback_trace (f : Callback Env) msg w keep w1 :
  call_callback f msg w = (keep, w1) ->
  trace w1 = trace w ++ [EvCallback msg keep] /\ self w1 = self w.
Proof.
  run. destruct (f msg (env w)) as [k e']. intros [= <- <-]. cbn. auto.
Qed.

Lemma monitor_guard_trace duration start_time w go w1 :
  monitor_guard duration start_time w = (go, w1) ->
  trace w1 = trace w /\ self w1 = self w.
Proof.
  unfold monitor_guard. run. destruct (time_time (env w)) as [t e'].
  intros [= <- <-]. cbn. auto.
Qed.

(** The three ways a poll can go. *)
Lemma monitor_body_frame (f : Callback Env) msg_count w msg w1 keep w2 :
  call_read 100 w = ((CANERR_NOERROR, msg), w1) ->
  call_callback f msg w1 = (keep, w2) ->
  monitor_body (Some f) msg_count w
  = ((if keep then Continue else Break, msg_count + 1), w2).
Proof.
  intros Hr Hc. unfold monitor_body, bind at 1. rewrite Hr. cbn.
  unfold bind. rewrite Hc. destruct keep; reflexivity.
Qed.

Lemma monitor_body_empty cb msg_count w msg w1 :
  call_read 100 w = ((CANERR_RX_EMPTY, msg), w1) ->
  monitor_body cb msg_count w = ((Continue, msg_count), w1).
Proof.
  intros Hr. unfold monitor_body, bind at 1. rewrite Hr. reflexivity.
Qed.

Lemma monitor_body_failure cb msg_count w r msg w1 :
  call_read 100 w = ((r, msg), w1) ->
  r <> CANERR_NOERROR -> r <> CANERR_RX_EMPTY ->
  monitor_body cb msg_count w = ((Break, msg_count), w1).
Proof.
  intros Hr H0 H30. unfold monitor_body, bind at 1. rewrite Hr.
  destruct (Z.eqb_spec r CANERR_NOERROR); [contradiction|].
  destruct (Z.eqb_spec r CANERR_RX_EMPTY); [contradiction|]. reflexivity.
Qed.

(** What one poll adds to the trace and to the count. *)
Lemma monitor_body_trace cb msg_count w c msg_count' w' :
  monitor_body cb msg_count w = ((c, msg_count'), w') ->
  exists t,
    trace w' = trace w ++ t
    /\ self w' = self w
    /\ msg_count' = msg_count + count_events is_frame t
    /\ (is_Some cb -> count_events is_callback t = count_events is_frame t).
Proof.
  destruct (call_read 100 w) as [[r msg] w1] eqn:Hr.
  destruct (call_read_trace _ _ _ _ _ Hr) as [Ht1 Hs1].
  destruct (Z.eqb_spec r CANERR_NOERROR) as [->|H0].
  - destruct cb as [f|].
    + destruct (call_callback f msg w1) as [keep w2] eqn:Hc.
      destruct (call_callback_trace _ _ _ _ _ Hc) as [Ht2 Hs2].
      rewrite (monitor_body_frame _ _ _ _ _ _ _ Hr Hc). intros [= _ <- <-].
      eexists. rewrite Ht2, Ht1, <- app_assoc. split; [reflexivity|].
      split; [congruence|]. split; reflexivity.
    + unfold monitor_body, bind at 1. rewrite Hr. cbn. intros [= _ <- <-].
      eexists. split; [exact Ht1|]. split; [exact Hs1|].
      split; [reflexivity|]. intros [? ?]; discriminate.
  - assert (Hfr : count_events is_frame [EvRead 100 r msg] = 0).
    { unfold count_events. cbn.
      destruct (Z.eqb_spec r CANERR_NOERROR); [contradiction|reflexivity]. }
    destruct (Z.eqb_spec r CANERR_RX_EMPTY) as [->|H30].
    + rewrite (monitor_body_empty _ _ _ _ _ Hr). intros [= _ <- <-].
      eexists. split; [exact Ht1|]. split; [exact Hs1|].
      rewrite Hfr. split; [lia|reflexivity].
    + rewrite (monitor_body_failure _ _ _ _ _ _ Hr H0 H30).
      intros [= _ <- <-].
      eexists. split; [exact Ht1|]. split; [exact Hs1|].
      rewrite Hfr. split; [lia|reflexivity].
Qed.

(** After [k] polls that did not end the loop, the loop goes on from the
    state they reached. *)
Lemma monitor_polls_loop (k : nat) duration cb start_time :
  forall msg_count w n wk,
    monitor_polls k duration cb start_time msg_count w = Some (n, wk) ->
    forall fuel,
      monitor_loop (k + fuel) duration cb start_time msg_count w
      = monitor_loop fuel duration cb start_time n wk.
Proof.
  induction k as [|k IH]; intros msg_count w n wk H fuel.
  - cbn in H. injection H as <- <-. reflexivity.
  - cbn [monitor_polls] in H. cbn [Nat.add monitor_loop].
    destruct (monitor_guard duration start_time w) as [go w1].
    destruct go; [|discriminate].
    destruct (monitor_body cb msg_count w1) as [[c m] w2].
    destruct c; [|discriminate]. apply IH. exact H.
Qed.

Lemma monitor_polls_trace (k : nat) duration cb start_time :
  forall msg_count w n wk,
    monitor_polls k duration cb start_time msg_count w = Some (n, wk) ->
    exists t,
      trace wk = trace w ++ t
      /\ self wk = self w
      /\ n = msg_count + count_events is_frame t
      /\ (is_Some cb ->
          count_events is_callback t = count_events is_frame t).
Proof.
  induction k as [|k IH]; intros msg_count w n wk H.
  - cbn in H. injection H as <- <-. exists []. rewrite app_nil_r.
    repeat split. unfold count_events; cbn; lia.
  - cbn [monitor_polls] in H.
    destruct (monitor_guard duration start_time w) as [go w1] eqn:Hg.
    destruct go; [|discriminate].
    destruct (monitor_guard_trace _ _ _ _ _ Hg) as [Htg Hsg].
    destruct (monitor_body cb msg_count w1) as [[c m] w2] eqn:Hb.
    destruct c; [|discriminate].
    destruct (monitor_body_trace _ _ _ _ _ _ Hb) as (t1 & Ht1 & Hs1 & Hm & Hc1).
    destruct (IH _ _ _ _ H) as (t2 & Ht2 & Hs2 & Hn & Hc2).
    exists (t1 ++ t2). rewrite Ht2, Ht1, Htg, <- app_assoc.
    split; [reflexivity|]. split; [congruence|].
    rewrite !count_events_app. split; [lia|].
    intros Hcb. rewrite (Hc1 Hcb), (Hc2 Hcb). reflexivity.
Qed.

(** The loop does not touch the session's fields. *)
Lemma monitor_loop_self (fuel : nat) duration cb start_time :
  forall msg_count w n w',
    monitor_loop fuel duration cb start_time msg_count w = Some (n, w') ->
    self w' = self w.
Proof.
  induction fuel as [|fuel IH]; intros msg_count w n w' H; [discriminate|].
  cbn [monitor_loop] in H.
  destruct (monitor_guard duration start_time w) as [go w1] eqn:Hg.
  destruct (monitor_guard_trace _ _ _ _ _ Hg) as [_ Hsg].
  destruct go; [|injection H as <- <-; exact Hsg].
  destruct (monitor_body cb msg_count w1) as [[c m] w2] eqn:Hb.
  destruct (monitor_body_trace _ _ _ _ _ _ Hb) as (t1 & _ & Hs1 & _).
  destruct c.
  - rewrite (IH _ _ _ _ H). congruence.
  - injection H as <- <-. congruence.
Qed.

Lemma now_trace w t w0 :
  now w = (t, w0) -> trace w0 = trace w /\ self w0 = self w.
Proof.
  run. destruct (time_time (env w)) as [t' e']. intros [= <- <-]. cbn. auto.
Qed.

Lemma monitor_started w fuel duration cb start_time w0 :
  session_state (self w) = Started ->
  now w = (start_time, w0) ->
  monitor fuel duration cb w
  = monitor_loop fuel duration cb start_time 0 w0.
Proof.
  intros Hs Hn. unfold monitor. rewrite Hn.
  unfold session_state in Hs. destruct (is_started (self w)); [reflexivity|].
  destruct (is_initialized (self w)); discriminate.
Qed.

Lemma added_trans w w1 w2 t1 t2 :
  trace w1 = trace w ++ t1 -> trace w2 = trace w1 ++ t2 ->
  added w w1 = t1 /\ added w w2 = t1 ++ t2.
Proof.
  intros H1 H2. split; apply added_app; [assumption|].
  rewrite H2, H1, app_assoc. reflexivity.
Qed.

(** C8. On a started session, let [k] polls go by without ending the loop
    and let the next poll, made while the duration has not elapsed, read a
    frame for which the callback returns false.  Then, given fuel for these
    [k + 1] polls, [monitor] returns right after that call of the callback:
    the read and the callback are the last two events, and the count
    returned is the number of frames read, which is the number of calls of
    the callback: [n] when this was the [n]-th frame, 1 when it was the
    first. *)
Theorem monitor_stops_on_false w duration (f : Callback Env) start_time w0
    (k : nat) (n : Z) wk w1 msg w2 w3 (fuel : nat) :
  session_state (self w) = Started ->
  now w = (start_time, w0) ->
  monitor_polls k duration (Some f) start_time 0 w0 = Some (n, wk) ->
  monitor_guard duration start_time wk = (true, w1) ->
  call_read 100 w1 = ((CANERR_NOERROR, msg), w2) ->
  call_callback f msg w2 = (false, w3) ->
  (k < fuel)%nat ->
  monitor fuel duration (Some f) w = Some (n + 1, w3)
  /\ added w w3
     = added w wk ++ [EvRead 100 CANERR_NOERROR msg; EvCallback msg false]
  /\ n = count_events is_frame (added w wk)
  /\ n + 1 = count_events is_callback (added w w3)
  /\ n + 1 = count_events is_frame (added w w3).
Proof.
  intros Hs Hnow Hp Hg Hr Hc Hf.
  rewrite (monitor_started _ _ _ _ _ _ Hs Hnow).
  replace fuel with (k + S (fuel - S k))%nat by lia.
  rewrite (monitor_polls_loop _ _ _ _ _ _ _ _ Hp).
  cbn [monitor_loop]. rewrite Hg, (monitor_body_frame _ _ _ _ _ _ _ Hr Hc).
  split; [reflexivity|].
  destruct (now_trace _ _ _ Hnow) as [Ht0 _].
  destruct (monitor_polls_trace _ _ _ _ _ _ _ _ Hp) as (t & Ht & _ & Hn & Hcb).
  destruct (monitor_guard_trace _ _ _ _ _ Hg) as [Ht1 _].
  destruct (call_read_trace _ _ _ _ _ Hr) as [Ht2 _].
  destruct (call_callback_trace _ _ _ _ _ Hc) as [Ht3 _].
  rewrite Ht0 in Ht.
  assert (Ht' : trace w3 = trace wk
                ++ [EvRead 100 CANERR_NOERROR msg; EvCallback msg false]).
  { rewrite Ht3, Ht2, Ht1, <- app_assoc. reflexivity. }
  destruct (added_trans _ _ _ _ _ Ht Ht') as [-> ->].
  split; [reflexivity|]. split; [lia|].
  rewrite !count_events_app, (Hcb ltac:(eauto)).
  unfold count_events at 2 4. cbn. lia.
Qed.

(** C9. On a started session, let [k] polls go by without ending the loop
    and let the next poll, made while the duration has not elapsed, read a
    status [r] other than success.  If [r] is the receive-queue-empty
    status the loop goes on to its next iteration with the count as it was.
    Otherwise, given fuel for these [k + 1] polls, [monitor] returns at
    once, and what it returns is the number of frames read so far, which is
    not negative, and so not [r] when [r] is negative. *)
Theorem monitor_read_status w duration cb start_time w0 (k : nat) (n : Z)
    wk w1 (r : Z) msg w2 :
  session_state (self w) = Started ->
  now w = (start_time, w0) ->
  monitor_polls k duration cb start_time 0 w0 = Some (n, wk) ->
  monitor_guard duration start_time wk = (true, w1) ->
  call_read 100 w1 = ((r, msg), w2) ->
  r <> CANERR_NOERROR ->
  (r = CANERR_RX_EMPTY ->
     forall fuel : nat,
       monitor (S k + fuel) duration cb w
       = monitor_loop fuel duration cb start_time n w2)
  /\ (r <> CANERR_RX_EMPTY ->
      forall fuel : nat, (k < fuel)%nat ->
        monitor fuel duration cb w = Some (n, w2))
  /\ added w w2 = added w wk ++ [EvRead 100 r msg]
  /\ n = count_events is_frame (added w w2)
  /\ 0 <= n
  /\ (r < 0 -> n <> r).
Proof.
  intros Hs Hnow Hp Hg Hr H0.
  destruct (now_trace _ _ _ Hnow) as [Ht0 _].
  destruct (monitor_polls_trace _ _ _ _ _ _ _ _ Hp) as (t & Ht & _ & Hn & _).
  destruct (monitor_guard_trace _ _ _ _ _ Hg) as [Ht1 _].
  destruct (call_read_trace _ _ _ _ _ Hr) as [Ht2 _].
  rewrite Ht0 in Ht. rewrite Ht1 in Ht2.
  destruct (added_trans _ _ _ _ _ Ht Ht2) as [-> ->].
  assert (Hfr : count_events is_frame [EvRead 100 r msg] = 0).
  { unfold count_events. cbn.
    destruct (Z.eqb_spec r CANERR_NOERROR); [contradiction|reflexivity]. }
  pose proof (count_events_nonneg is_frame t) as Hpos.
  split; [|split].
  - intros ->. intros fuel.
    rewrite (monitor_started _ _ _ _ _ _ Hs Hnow).
    replace (S k + fuel)%nat with (k + S fuel)%nat by lia.
    rewrite (monitor_polls_loop _ _ _ _ _ _ _ _ Hp).
    cbn [monitor_loop]. rewrite Hg, (monitor_body_empty _ _ _ _ _ Hr).
    reflexivity.
  - intros H30 fuel Hf.
    rewrite (monitor_started _ _ _ _ _ _ Hs Hnow).
    replace fuel with (k + S (fuel - S k))%nat by lia.
    rewrite (monitor_polls_loop _ _ _ _ _ _ _ _ Hp).
    cbn [monitor_loop].
    rewrite Hg, (monitor_body_failure _ _ _ _ _ _ Hr H0 H30). reflexivity.
  - split; [reflexivity|]. rewrite count_events_app, Hfr.
    repeat split; lia.
Qed.

End Monitor.

Section Invariant.
Context {Env : Type} `{api : CANAPI Env} `{clock : Clock Env}.
Implicit Types (w : World Env).

Lemma close_self w :
  self (snd (close w))
  = {| channel := if is_initialized (self w) then -1 else channel (self w);
       is_initialized := false; is_started := false |}.
Proof.
  rewrite close_unfold.
  destruct (if is_started (self w) then api_reset (env w)
            else (CANERR_NOERROR, env w)) as [r1 e1].
  destruct (if is_initialized (self w) then api_exit e1
            else (r1, e1)) as [r2 e2].
  reflexivity.
Qed.

Lemma close_inv w : session_inv (self w) -> session_inv (self (snd (close w))).
Proof.
  intros [_ H2]. rewrite close_self. split; cbn; [discriminate|].
  intros _. destruct (is_initialized (self w)); auto.
Qed.

Lemma open_inv w c m :
  session_inv (self w) -> session_inv (self (snd (open c m w))).
Proof.
  intros Hinv. unfold open. unfold bind at 1. cbn [get_self].
  set (w1 := snd ((if is_initialized (self w)
                   then bind close (fun _ => ret tt) else ret tt) w)).
  assert (Hw1 : session_inv (self w1) /\ is_started (self w1) = false).
  { subst w1. destruct (is_initialized (self w)) eqn:Hi.
    - unfold bind, ret. pose proof (close_inv w Hinv) as Hc.
      pose proof (close_self w) as Hs.
      destruct (close w) as [r wc]. cbn in *. split; [exact Hc|].
      rewrite Hs. reflexivity.
    - cbn. split; [exact Hinv|]. destruct Hinv as [H1 _].
      destruct (is_started (self w)); [|reflexivity].
      specialize (H1 eq_refl). congruence. }
  unfold bind at 1.
  destruct ((if is_initialized (self w)
             then bind close (fun _ => ret tt) else ret tt) w) as [u w1'].
  cbn [snd] in w1. subst w1. destruct Hw1 as [Hinv1 Hst1].
  run. destruct (api_init c _ (env w1')) as [r e']; cbn.
  destruct (r =? CANERR_NOERROR); cbn.
  - split; cbn; [reflexivity | discriminate].
  - exact Hinv1.
Qed.

Lemma start_inv w b :
  session_inv (self w) -> session_inv (self (snd (start b w))).
Proof.
  intros Hinv. unfold start. run.
  destruct (is_initialized (self w)) eqn:Hi; cbn; [|exact Hinv].
  destruct (api_start _ (env w)) as [r e']; cbn.
  destruct (r =? CANERR_NOERROR); cbn; [|exact Hinv].
  split; cbn; [auto | congruence].
Qed.

Lemma send_self w i d x r t : self (snd (send i d x r t w)) = self w.
Proof.
  unfold send. run. destruct (is_started (self w)); cbn; [|reflexivity].
  destruct (to_bytes d) as [bs|]; [|reflexivity].
  match goal with |- context [if ?c then (8%nat, take 8 bs) else _] =>
    destruct c end;
  (match goal with |- context [copy_data ?a ?b ?c] =>
     destruct (copy_data a b c); [|reflexivity] end);
  match goal with |- context [api_write ?m t (env w)] =>
    destruct (api_write m t (env w)); reflexivity end.
Qed.

Lemma receive_self w t : self (snd (receive t w)) = self w.
Proof.
  unfold receive. run. destruct (is_started (self w)); cbn; [|reflexivity].
  destruct (api_read t (env w)); reflexivity.
Qed.

Lemma scan_channels_self w n : self (snd (scan_channels n w)) = self w.
Proof.
  unfold scan_channels.
  destruct (scan_loop_spec (seqZ 0 n) [] w) as (t & _ & _ & _ & _ & Hs).
  exact Hs.
Qed.

Lemma monitor_self w fuel d cb n w' :
  monitor fuel d cb w = Some (n, w') -> self w' = self w.
Proof.
  unfold monitor. destruct (is_started (self w)); cbn.
  - destruct (now w) as [t w0] eqn:Hn. intros H.
    apply monitor_loop_self in H. rewrite H.
    apply (now_trace _ _ _ Hn).
  - intros [= _ <-]. reflexivity.
Qed.

Lemma step_inv o w w' :
  step o w w' -> session_inv (self w) -> session_inv (self w').
Proof.
  intros Hstep Hinv. destruct Hstep.
  - apply open_inv; assumption.
  - apply start_inv; assumption.
  - apply close_inv; assumption.
  - rewrite send_self; assumption.
  - rewrite receive_self; assumption.
  - rewrite scan_channels_self; assumption.
  - erewrite monitor_self by eassumption. assumption.
Qed.

(** C10. In every state reached from construction by calls of [open],
    [start], [close], [send], [receive], [scan_channels] and [monitor],
    whatever the driver answers, a started session is initialized and a
    session that is not initialized has channel -1. *)
Theorem reachable_inv w :
  reachable w ->
  (is_started (self w) = true -> is_initialized (self w) = true)
  /\ (is_initialized (self w) = false -> channel (self w) = -1).
Proof.
  intros H. change (session_inv (self w)). induction H as [e|o w w' _ IH Hs].
  - split; cbn; [discriminate | reflexivity].
  - exact (step_inv o w w' Hs IH).
Qed.

End Invariant.

(** * The properties on the scripted driver *)

Section Scripted.

Lemma send_receive_not_started_witness :
  let w := initialized_on fake_ok in
  send 688 (PInts (replicate 8 255)) false false 0 w = (Returns (-95), w)
  /\ receive 0 w = ((-95, None), w)
  /\ added w (snd (send 688 (PInts (replicate 8 255)) false false 0 w)) = []
  /\ added w (snd (receive 0 w)) = [].
Proof.
  intros w. apply send_receive_not_started. cbn. discriminate.
Defined.

(** Ten bytes are sent as the first eight. *)
Lemma send_truncates_witness :
  let w := started_on fake_ok in
  let data := PInts [1; 2; 3; 4; 5; 6; 7; 8; 9; 10] in
  let bs := [x01; x02; x03; x04; x05; x06; x07; x08; x09; x0a] in
  exists msg status e',
    api_write msg 0 (env w) = (status, e')
    /\ send 688 data false false 0 w
       = (Returns status,
          {| self := self w; env := e';
             trace := trace w ++ [EvWrite msg 0 status] |})
    /\ msg_dlc msg = 8
    /\ take 8 (msg_data msg) = take 8 bs
    /\ drop 8 (msg_data msg) = replicate (64 - 8) x00
    /\ ((8 < length bs)%nat ->
        msg_dlc msg = 8 /\ take 8 (msg_data msg) = take 8 bs)
    /\ ((length bs <= 8)%nat ->
        msg_dlc msg = Z.of_nat (length bs)
        /\ take (length bs) (msg_data msg) = bs).
Proof.
  intros w data bs.
  assert (Hcap : (8 <= DATA_LEN)%nat) by (cbn; lia).
  exact (send_truncates w 688 data bs false false 0 eq_refl eq_refl Hcap).
Defined.

Example send_ten_bytes :
  added (started_on fake_ok)
        (snd (send 688 (PInts [1; 2; 3; 4; 5; 6; 7; 8; 9; 10]) false false 0
                (started_on fake_ok)))
  = [EvWrite {| msg_id := 688;
                msg_flags := {| xtd := 0; rtr := 0; fdf := 0; brs := 0;
                                esi := 0 |};
                msg_dlc := 8;
                msg_data := [x01; x02; x03; x04; x05; x06; x07; x08]
                            ++ replicate 56 x00 |} 0 0].
Proof. reflexivity. Qed.

(** An integer outside [range(256)] makes [bytes()] raise before anything
    reaches the driver. *)
Example send_not_a_byte :
  send 688 (PInts [1; 256]) false false 0 (started_on fake_ok)
  = (Raises ValueError, started_on fake_ok).
Proof. reflexivity. Qed.

(** C3 as stated fails: the selector 12345 is no preset, and [start]
    passes it to the driver and returns the driver's success. *)
Lemma start_unrecognized_selector_reaches_driver :
  ~ (forall (w : World Fake) (bitrate_selector : Z),
       session_state (self w) = Initialized ->
       recognized_preset bitrate_selector = false ->
       fst (start bitrate_selector w) <> CANERR_NOERROR
       /\ added w (snd (start bitrate_selector w)) = []).
Proof.
  intros H.
  destruct (H (initialized_on fake_ok) 12345 eq_refl eq_refl) as [Hr _].
  apply Hr. reflexivity.
Qed.

Lemma start_delegates_witness :
  let w := initialized_on fake_ok in
  exists r e',
    api_start {| index := 12345 |} (env w) = (r, e')
    /\ fst (start 12345 w) = r
    /\ added w (snd (start 12345 w)) = [EvStart {| index := 12345 |} r]
    /\ env (snd (start 12345 w)) = e'
    /\ is_started (self (snd (start 12345 w)))
       = (r =? CANERR_NOERROR) || is_started (self w).
Proof.
  intros w. apply start_delegates. reflexivity.
Defined.

(** C4 as stated fails: when [reset] fails with -1 and [exit] succeeds,
    [close] returns 0, while the last non-zero status of the two steps
    is -1. *)
Lemma close_drops_reset_status :
  ~ (forall w : World Fake,
       fst (close w)
       = last_nonzero (omap status_of (added w (snd (close w))))).
Proof.
  intros H. specialize (H (started_on fake_reset_fails)).
  vm_compute in H. discriminate H.
Qed.

Example close_after_failed_reset :
  added (started_on fake_reset_fails) (snd (close (started_on fake_reset_fails)))
  = [EvReset (-1); EvExit 0]
  /\ fst (close (started_on fake_reset_fails)) = 0.
Proof. split; reflexivity. Qed.

Lemma open_closes_first_witness :
  let w := started_on fake_ok in
  exists r1 r2 r3 mode,
    added w (snd (open 1 false w))
    = (if is_started (self w) then [EvReset r1] else [])
      ++ [EvExit r2; EvInit 1 mode r3]
    /\ added w (snd (close w))
       = (if is_started (self w) then [EvReset r1] else []) ++ [EvExit r2]
    /\ session_state (self (snd (close w))) = Closed
    /\ fst (open 1 false w) = r3.
Proof.
  intros w. apply open_closes_first.
  - split; cbn; [reflexivity | discriminate].
  - cbn. discriminate.
Defined.

Example open_while_started :
  added (started_on fake_ok) (snd (open 1 true (started_on fake_ok)))
  = [EvReset 0; EvExit 0; EvInit 1 {| byte := 0; bits_mon := 1 |} 0].
Proof. reflexivity. Qed.

(** The spec's example: channels 2 and 5 are free among 8. *)
Example scan_eight :
  fst (scan_channels 8 (closed_on fake_ok)) = [2; 5]
  /\ fst (scan_channels 0 (closed_on fake_ok)) = []
  /\ fst (scan_channels (-3) (closed_on fake_ok)) = []
  /\ fst (scan_channels 2 (closed_on fake_ok)) = [].
Proof. repeat split; reflexivity. Qed.

(** One empty poll, then a frame the callback refuses: count 1. *)
Lemma monitor_stops_on_false_witness :
  let w := started_on fake_bus in
  let msg := Some frame0 in
  let wk := bus_polled 1 (Some cb_stop) in
  let w3 := bus_called 1 cb_stop msg in
  monitor 2 10 (Some cb_stop) w = Some (0 + 1, w3)
  /\ added w w3
     = added w wk ++ [EvRead 100 CANERR_NOERROR msg; EvCallback msg false]
  /\ 0 = count_events is_frame (added w wk)
  /\ 0 + 1 = count_events is_callback (added w w3)
  /\ 0 + 1 = count_events is_frame (added w w3).
Proof.
  intros w msg wk w3.
  apply (monitor_stops_on_false w 10 cb_stop bus_t0 bus_begun 1 0 wk
           (bus_tested 1 (Some cb_stop)) msg (bus_read 1 (Some cb_stop)) w3 2).
  - reflexivity.
  - reflexivity.
  - vm_compute. reflexivity.
  - vm_compute. reflexivity.
  - vm_compute. reflexivity.
  - vm_compute. reflexivity.
  - lia.
Defined.

Example monitor_stops_at_first :
  fst <$> monitor 2 10 (Some cb_stop) (started_on fake_bus) = Some 1.
Proof. vm_compute. reflexivity. Qed.

(** The callback refuses the second frame: count 2. *)
Example monitor_stops_at_second :
  fst <$> monitor 10 10 (Some cb_second) (started_on fake_bus) = Some 2.
Proof. vm_compute. reflexivity. Qed.

(** An empty poll and two frames, then a failing read: count 2. *)
Lemma monitor_read_status_witness :
  let w := started_on fake_bus in
  let cb := Some cb_go in
  let wk := bus_polled 3 cb in
  let w2 := bus_read 3 cb in
  (-1 = CANERR_RX_EMPTY ->
     forall fuel : nat,
       monitor (4 + fuel) 10 cb w = monitor_loop fuel 10 cb bus_t0 2 w2)
  /\ (-1 <> CANERR_RX_EMPTY ->
      forall fuel : nat, (3 < fuel)%nat -> monitor fuel 10 cb w = Some (2, w2))
  /\ added w w2 = added w wk ++ [EvRead 100 (-1) None]
  /\ 2 = count_events is_frame (added w w2)
  /\ 0 <= 2
  /\ (-1 < 0 -> 2 <> -1).
Proof.
  intros w cb wk w2.
  apply (monitor_read_status w 10 cb bus_t0 bus_begun 3 2 wk
           (bus_tested 3 cb) (-1) None w2).
  - reflexivity.
  - reflexivity.
  - vm_compute. reflexivity.
  - vm_compute. reflexivity.
  - vm_compute. reflexivity.
  - discriminate.
Defined.

Example monitor_after_failure :
  fst <$> monitor 4 10 (Some cb_go) (started_on fake_bus) = Some 2
  /\ added (started_on fake_bus) (bus_read 3 (Some cb_go))
     = [EvRead 100 CANERR_RX_EMPTY None;
        EvRead 100 CANERR_NOERROR (Some frame0); EvCallback (Some frame0) true;
        EvRead 100 CANERR_NOERROR (Some frame0); EvCallback (Some frame0) true;
        EvRead 100 (-1) None].
Proof. split; vm_compute; reflexivity. Qed.

(** When the duration elapses the loop ends by its condition. *)
Example monitor_times_out :
  fst <$> monitor 10 3 None (started_on fake_bus) = Some 1
  /\ monitor 2 3 None (started_on fake_bus) = None
  /\ fst <$> monitor 0 3 None (closed_on fake_bus) = Some (-95).
Proof. repeat split; vm_compute; reflexivity. Qed.

Lemma reachable_inv_witness :
  let w := snd (start (-2) (snd (open 0 false (closed_on fake_ok)))) in
  (is_started (self w) = true -> is_initialized (self w) = true)
  /\ (is_initialized (self w) = false -> channel (self w) = -1).
Proof.
  intros w. apply (reachable_inv (clock := fake_clock)).
  eapply reach_step; [eapply reach_step; [apply reach_init|]|].
  - apply (step_open 0 false).
  - apply (step_start (-2)).
Defined.

End Scripted.

(** * Further properties of the class *)

Section Guards.
Context {Env : Type} `{api : CANAPI Env} `{clock : Clock Env}
        `{query : CANQuery Env}.
Implicit Types (w : World Env).

(** X1. On a session that is not initialized, [start] and the three
    queries return -95 (with empty payloads) and leave the world as it is:
    the driver is not called. *)
Theorem not_initialized_refused w bitrate_index :
  is_initialized (self w) = false ->
  start bitrate_index w = (-95, w)
  /\ get_status w = ((-95, None), w)
  /\ get_busload w = ((-95, busload_zero, None), w)
  /\ get_bitrate w = ((-95, None, None), w).
Proof.
  intros Hi. unfold start, get_status, get_busload, get_bitrate. run.
  rewrite Hi. repeat split; reflexivity.
Qed.

(** On a session that is not started, [monitor] returns -95 at once: it
    reads neither the clock nor the driver. *)
Lemma monitor_not_started w fuel duration cb :
  is_started (self w) = false ->
  monitor fuel duration cb w = Some (-95, w).
Proof.
  intros Hs. unfold monitor. rewrite Hs. reflexivity.
Qed.

(** X2. After [close], whatever the session was and whatever the driver
    answered, every call that needs a channel is refused with -95 without
    reaching the driver: [start], [send], [receive], [monitor] and the
    three queries; and the destructor, which closes again, does nothing. *)
Theorem after_close_refused w bitrate_index mid data extended_id
    remote_frame timeout fuel duration cb :
  let w1 := snd (close w) in
  start bitrate_index w1 = (-95, w1)
  /\ send mid data extended_id remote_frame timeout w1 = (Returns (-95), w1)
  /\ receive timeout w1 = ((-95, None), w1)
  /\ monitor fuel duration cb w1 = Some (-95, w1)
  /\ get_status w1 = ((-95, None), w1)
  /\ get_busload w1 = ((-95, busload_zero, None), w1)
  /\ get_bitrate w1 = ((-95, None, None), w1)
  /\ del w1 = (tt, w1).
Proof.
  intros w1.
  assert (Hi : is_initialized (self w1) = false
               /\ is_started (self w1) = false).
  { subst w1. rewrite close_unfold.
    destruct (if is_started (self w) then api_reset (env w)
              else (CANERR_NOERROR, env w)) as [r1 e1].
    destruct (if is_initialized (self w) then api_exit e1
              else (r1, e1)) as [r2 e2]. split; reflexivity. }
  destruct Hi as [Hi Hs]. clearbody w1.
  destruct w1 as [[c i s] e t]. cbn in Hi, Hs. subst i s.
  match goal with |- context [del ?x] =>
    assert (Hd : del x = (tt, x))
      by (unfold del, bind; rewrite close_unfold; cbn; rewrite app_nil_r;
          reflexivity) end.
  unfold start, send, receive, monitor, get_status, get_busload,
    get_bitrate. run. cbn.
  repeat split; first [reflexivity | exact Hd].
Qed.

(** X3. Between [open] and [start] the queries are answered by the driver
    while frame traffic is refused: on an initialized session that is not
    started, the three queries return what the driver returns and
    [send], [receive] and [monitor] return -95. *)
Theorem queries_before_start w mid data extended_id remote_frame timeout
    fuel duration cb :
  session_state (self w) = Initialized ->
  fst (get_status w) = fst (api_status (env w))
  /\ fst (get_busload w) = fst (api_busload (env w))
  /\ fst (get_bitrate w) = fst (api_bitrate (env w))
  /\ self (snd (get_status w)) = self w
  /\ self (snd (get_busload w)) = self w
  /\ self (snd (get_bitrate w)) = self w
  /\ fst (send mid data extended_id remote_frame timeout w) = Returns (-95)
  /\ fst (receive timeout w) = (-95, None)
  /\ monitor fuel duration cb w = Some (-95, w).
Proof.
  intros Hs. unfold session_state in Hs.
  destruct (is_started (self w)) eqn:Hst; [discriminate|].
  destruct (is_initialized (self w)) eqn:Hi; [|discriminate].
  unfold get_status, get_busload, get_bitrate, send, receive, monitor, ask.
  run. rewrite Hi, Hst. cbn.
  destruct (api_status (env w)), (api_busload (env w)), (api_bitrate (env w)).
  repeat split; reflexivity.
Qed.

(** X4. The driver library: a name given by the caller is used as it is;
    without one, Windows alone selects the DLL, Darwin alone the dylib,
    and every other system name the shared object. *)
Theorem select_lib_name_cases (system : string) (name : string) :
  select_lib_name (Some name) system = name
  /\ (select_lib_name None system = "u3cankvl.dll" <-> system = "Windows")
  /\ (select_lib_name None system = "libUVCANKVL.dylib" <-> system = "Darwin")
  /\ (select_lib_name None system = "libuvcankvl.so.1"
      <-> system <> "Darwin" /\ system <> "Windows").
Proof.
  unfold select_lib_name. split; [reflexivity|].
  destruct (String.eqb_spec system "Darwin") as [->|Hd]; cbn.
  - repeat split; intros; try discriminate; try reflexivity;
      try (destruct H as [? ?]; congruence).
  - destruct (String.eqb_spec system "Windows") as [->|Hw]; cbn.
    + repeat split; intros; try discriminate; try reflexivity;
        try (destruct H as [? ?]; congruence).
    + repeat split; intros; try discriminate; try congruence; auto.
Qed.

End Guards.

Section OpenSend.
Context {Env : Type} `{api : CANAPI Env}.
Implicit Types (w : World Env) (bs buf : list Byte.byte).

(** What [open] does, in terms of [close] and the driver's [init]. *)
Lemma open_unfold w c (m : bool) :
  open c m w =
  let w1 := if is_initialized (self w) then snd (close w) else w in
  let mode := {| byte := CANMODE_DEFAULT; bits_mon := flag m |} in
  let '(r, e') := api_init c mode (env w1) in
  (r,
   {| self := if r =? CANERR_NOERROR
              then {| channel := c; is_initialized := true;
                      is_started := is_started (self w1) |}
              else self w1;
      env := e';
      trace := trace w1 ++ [EvInit c mode r] |}).
Proof.
  unfold open. unfold bind at 1. cbn [get_self]. unfold bind at 1.
  destruct (is_initialized (self w)).
  - unfold bind at 1. destruct (close w) as [r0 w1]. cbn [ret snd].
    run. destruct m; cbn [flag byte];
      (match goal with |- context [api_init c ?md (env w1)] =>
         destruct (api_init c md (env w1)) as [r e'] end);
      destruct (r =? CANERR_NOERROR); destruct w1 as [[? ? ?] ? ?];
      reflexivity.
  - cbn [ret].
    run. destruct m; cbn [flag byte];
      (match goal with |- context [api_init c ?md (env w)] =>
         destruct (api_init c md (env w)) as [r e'] end);
      destruct (r =? CANERR_NOERROR); destruct w as [[? ? ?] ? ?];
      reflexivity.
Qed.

(** X5. [open] on a session that satisfies the invariant ends with the
    driver's [init] on the given channel, in monitor mode exactly when
    asked, and returns its status.  On status 0 the session is initialized
    on that channel and not started; on any other status it is unbound: a
    failed [open] on a session that was open loses the former binding.  A
    session that was not initialized sees no other call. *)
Theorem open_result w c (m : bool) :
  session_inv (self w) ->
  let r := fst (open c m w) in
  let w' := snd (open c m w) in
  let mode := {| byte := CANMODE_DEFAULT; bits_mon := flag m |} in
  last (trace w') = Some (EvInit c mode r)
  /\ (r = CANERR_NOERROR ->
      self w' = {| channel := c; is_initialized := true;
                   is_started := false |})
  /\ (r <> CANERR_NOERROR ->
      self w' = {| channel := -1; is_initialized := false;
                   is_started := false |})
  /\ (is_initialized (self w) = false -> added w w' = [EvInit c mode r]).
Proof.
  intros [Hinv1 Hinv2]. cbv zeta. rewrite open_unfold. cbv zeta.
  set (w1 := if is_initialized (self w) then snd (close w) else w).
  assert (Hw1 : self w1 = {| channel := -1; is_initialized := false;
                             is_started := false |}).
  { subst w1. destruct (is_initialized (self w)) eqn:Hi.
    - rewrite close_unfold.
      destruct (if is_started (self w) then api_reset (env w)
                else (CANERR_NOERROR, env w)) as [r1 e1].
      rewrite Hi. destruct (api_exit e1) as [r2 e2]. reflexivity.
    - destruct (is_started (self w)) eqn:Hs.
      + specialize (Hinv1 eq_refl). congruence.
      + specialize (Hinv2 eq_refl). destruct (self w) as [ch i s].
        cbn in *. congruence. }
  assert (Hfresh : is_initialized (self w) = false -> w1 = w).
  { intros Hi. subst w1. rewrite Hi. reflexivity. }
  destruct (api_init c _ (env w1)) as [r e'] eqn:E. cbn [fst snd trace self].
  split; [apply last_snoc|]. rewrite Hw1. cbn [is_started].
  split; [|split].
  - intros ->. reflexivity.
  - intros Hr. destruct (Z.eqb_spec r CANERR_NOERROR); [contradiction|].
    reflexivity.
  - intros Hi. rewrite (Hfresh Hi). apply added_app. reflexivity.
Qed.

(** The copy loop fails when the buffer is shorter than the range. *)
Lemma copy_data_short (n : nat) :
  forall (k : nat) bs buf,
    (k + n <= length bs)%nat ->
    (length buf < k + n)%nat ->
    (0 < n)%nat ->
    copy_data (seq k n) bs buf = None.
Proof.
  induction n as [|n IH]; intros k bs buf Hbs Hbuf Hn; [lia|].
  cbn [seq copy_data].
  destruct (lookup_lt_is_Some_2 bs k) as [b Hb]; [lia|]. rewrite Hb.
  destruct (Nat.ltb_spec k (length buf)) as [Hk|Hk]; [|reflexivity].
  apply IH; rewrite ?length_insert; lia.
Qed.

(** What [send] does on a started session. *)
Lemma send_started_unfold w mid data (x r : bool) (t : Z) :
  is_started (self w) = true ->
  send mid data x r t w =
  match to_bytes data with
  | None => (Raises ValueError, w)
  | Some bs =>
      if (Nat.min (length bs) 8 <=? DATA_LEN)%nat then
        let '(st, e') := api_write (frame_of mid bs x r) t (env w) in
        (Returns st,
         {| self := self w; env := e';
            trace := trace w ++ [EvWrite (frame_of mid bs x r) t st] |})
      else (Raises IndexError, w)
  end.
Proof.
  intros Hst. unfold send. run. rewrite Hst. cbn [negb].
  destruct (to_bytes data) as [bs|]; [|reflexivity].
  set (n := Nat.min (length bs) 8).
  set (p := if (8 <? length bs)%nat then (8%nat, take 8 bs)
            else (length bs, bs)).
  assert (Hp : p = (n, take 8 bs)).
  { subst p n. destruct (Nat.ltb_spec 8 (length bs)) as [H|H].
    - rewrite Nat.min_r by lia. reflexivity.
    - rewrite Nat.min_l by lia. rewrite take_ge by lia. reflexivity. }
  rewrite Hp. clear p Hp.
  assert (Hlen : length (take 8 bs) = n).
  { subst n. rewrite length_take. lia. }
  cbn [msg_data Message_new with_id].
  destruct (Nat.leb_spec n DATA_LEN) as [Hcap|Hcap].
  - rewrite copy_data_prefix by (rewrite ?length_replicate; lia).
    rewrite take_take, Nat.min_l by (subst n; lia).
    unfold frame_of. fold n.
    cbn [with_id with_data with_dlc with_flags msg_id msg_flags msg_dlc
         msg_data Message_new].
    destruct (api_write _ t (env w)) as [st e']. reflexivity.
  - destruct n as [|n'] eqn:En; [lia|].
    rewrite copy_data_short;
      [reflexivity | cbn; lia | rewrite length_replicate; cbn; lia | lia].
Qed.

Lemma to_bytes_None (data : payload) :
  to_bytes data = None
  <-> exists l, data = PInts l /\ ~ Forall (fun x => 0 <= x < 256) l.
Proof.
  destruct data as [b|l]; cbn.
  - split; [discriminate | intros (l & H & _); discriminate].
  - split.
    + intros H. exists l. split; [reflexivity|].
      rewrite <- bytes_of_ints_is_Some, H. intros [? ?]; discriminate.
    + intros (l' & [= <-] & H). rewrite <- bytes_of_ints_is_Some in H.
      destruct (bytes_of_ints l); [|reflexivity].
      exfalso. apply H. eauto.
Qed.

(** X6. On a started session [send] ends in one of three ways.  When the
    payload is a list holding an integer outside 0..255, it raises
    [ValueError] and the driver is not called.  When the data buffer of a
    message is shorter than the truncated payload, it raises [IndexError]
    and the driver is not called.  Otherwise it calls the driver's write
    once, with the timeout given and a frame that carries the identifier
    and the two flags as given and has the three FD flags cleared, and
    returns the driver's status. *)
Theorem send_outcome w mid data (extended_id remote_frame : bool)
    (timeout : Z) :
  session_state (self w) = Started ->
  (to_bytes data = None
   <-> exists l, data = PInts l /\ ~ Forall (fun x => 0 <= x < 256) l)
  /\ (to_bytes data = None ->
      send mid data extended_id remote_frame timeout w
      = (Raises ValueError, w))
  /\ (forall bs, to_bytes data = Some bs ->
      (DATA_LEN < Nat.min (length bs) 8)%nat ->
      send mid data extended_id remote_frame timeout w
      = (Raises IndexError, w))
  /\ (forall bs, to_bytes data = Some bs ->
      (Nat.min (length bs) 8 <= DATA_LEN)%nat ->
      exists msg st e',
        api_write msg timeout (env w) = (st, e')
        /\ send mid data extended_id remote_frame timeout w
           = (Returns st,
              {| self := self w; env := e';
                 trace := trace w ++ [EvWrite msg timeout st] |})
        /\ msg_id msg = mid
        /\ msg_flags msg
           = {| xtd := flag extended_id; rtr := flag remote_frame;
                fdf := 0; brs := 0; esi := 0 |}).
Proof.
  intros Hs.
  assert (Hst : is_started (self w) = true).
  { unfold session_state in Hs. destruct (is_started (self w)); [reflexivity|].
    destruct (is_initialized (self w)); discriminate. }
  pose proof (send_started_unfold w mid data extended_id remote_frame
                timeout Hst) as Hu.
  split; [apply to_bytes_None|]. split; [|split].
  - intros Hn. rewrite Hu, Hn. reflexivity.
  - intros bs Hb Hcap. rewrite Hu, Hb.
    destruct (Nat.leb_spec (Nat.min (length bs) 8) DATA_LEN); [lia|].
    reflexivity.
  - intros bs Hb Hcap. rewrite Hu, Hb.
    destruct (Nat.leb_spec (Nat.min (length bs) 8) DATA_LEN); [|lia].
    destruct (api_write (frame_of mid bs extended_id remote_frame) timeout
                (env w)) as [st e'] eqn:E.
    exists (frame_of mid bs extended_id remote_frame), st, e'.
    repeat split. exact E.
Qed.

Lemma frame_of_take mid bs (x r : bool) :
  frame_of mid (take 8 bs) x r = frame_of mid bs x r.
Proof.
  unfold frame_of. rewrite length_take.
  replace (Nat.min (Nat.min 8 (length bs)) 8) with (Nat.min (length bs) 8)
    by lia.
  rewrite take_take.
  replace (Nat.min (Nat.min (length bs) 8) 8) with (Nat.min (length bs) 8)
    by lia.
  reflexivity.
Qed.

Lemma bytes_of_ints_of_bytes bs : bytes_of_ints (ints_of_bytes bs) = Some bs.
Proof.
  induction bs as [|b bs IH]; [reflexivity|].
  cbn [ints_of_bytes map bytes_of_ints]. fold (ints_of_bytes bs).
  rewrite IH. unfold byte_of_int.
  destruct (Z.ltb_spec (Z.of_N (Byte.to_N b)) 0) as [H|H]; [lia|].
  rewrite N2Z.id, Byte.of_to_N. reflexivity.
Qed.

Lemma ints_of_bytes_of_ints l bs :
  bytes_of_ints l = Some bs -> ints_of_bytes bs = l.
Proof.
  revert bs. induction l as [|x l IH]; intros bs; cbn.
  - intros [= <-]. reflexivity.
  - destruct (byte_of_int x) as [b|] eqn:Hb; [|discriminate].
    destruct (bytes_of_ints l) as [bs'|]; [|discriminate].
    intros [= <-]. cbn [ints_of_bytes map]. fold (ints_of_bytes bs').
    rewrite (IH bs' eq_refl). f_equal.
    unfold byte_of_int in Hb. destruct (Z.ltb_spec x 0); [discriminate|].
    rewrite (@Byte.to_of_N _ _ Hb). lia.
Qed.

(** X7. [send] looks at the first 8 bytes only and does not care how the
    bytes are given: in every session state, a payload and its first 8
    bytes give the same result, and so do a byte string and the list of
    its integers; lists of integers and byte strings correspond one to
    one where [bytes()] accepts the list. *)
Theorem send_payload_form w mid bs (extended_id remote_frame : bool)
    (timeout : Z) :
  send mid (PBytes (take 8 bs)) extended_id remote_frame timeout w
  = send mid (PBytes bs) extended_id remote_frame timeout w
  /\ send mid (PInts (ints_of_bytes bs)) extended_id remote_frame timeout w
     = send mid (PBytes bs) extended_id remote_frame timeout w
  /\ bytes_of_ints (ints_of_bytes bs) = Some bs
  /\ (forall l, bytes_of_ints l = Some bs -> ints_of_bytes bs = l).
Proof.
  split; [|split; [|split]].
  - destruct (is_started (self w)) eqn:Hst.
    + rewrite !send_started_unfold by assumption. cbn [to_bytes].
      rewrite frame_of_take, length_take.
      replace (Nat.min (Nat.min 8 (length bs)) 8)
        with (Nat.min (length bs) 8) by lia.
      reflexivity.
    + unfold send. run. rewrite Hst. reflexivity.
  - destruct (is_started (self w)) eqn:Hst.
    + rewrite !send_started_unfold by assumption. cbn [to_bytes].
      rewrite bytes_of_ints_of_bytes. reflexivity.
    + unfold send. run. rewrite Hst. reflexivity.
  - apply bytes_of_ints_of_bytes.
  - intros l. apply ints_of_bytes_of_ints.
Qed.

End OpenSend.

Section MonitorScan.
Context {Env : Type} `{api : CANAPI Env} `{clock : Clock Env}.
Implicit Types (w : World Env) (cb : option (Callback Env)).





(** X9. The third way out of the loop: after [k] polls that did not end
    it, when the test of the loop condition finds the duration elapsed,
    [monitor] returns the count as it stands without another read. *)
Theorem monitor_duration_elapsed w duration cb start_time w0 (k : nat)
    (n : Z) wk w1 (fuel : nat) :
  session_state (self w) = Started ->
  now w = (start_time, w0) ->
  monitor_polls k duration cb start_time 0 w0 = Some (n, wk) ->
  monitor_guard duration start_time wk = (false, w1) ->
  (k < fuel)%nat ->
  monitor fuel duration cb w = Some (n, w1)
  /\ added w w1 = added w wk
  /\ n = count_events is_frame (added w wk).
Proof.
  intros Hs Hnow Hp Hg Hf.
  rewrite (monitor_started _ _ _ _ _ _ Hs Hnow).
  replace fuel with (k + S (fuel - S k))%nat by lia.
  rewrite (monitor_polls_loop _ _ _ _ _ _ _ _ Hp).
  cbn [monitor_loop]. rewrite Hg. split; [reflexivity|].
  destruct (now_trace _ _ _ Hnow) as [Ht0 _].
  destruct (monitor_polls_trace _ _ _ _ _ _ _ _ Hp) as (t & Ht & _ & Hn & _).
  destruct (monitor_guard_trace _ _ _ _ _ Hg) as [Ht1 _].
  rewrite Ht0 in Ht.
  rewrite (added_app w wk t Ht).
  rewrite (added_app w w1 t) by congruence.
  split; [reflexivity | lia].
Qed.

(** X10. A frame does not end the loop unless the callback says so: after
    [k] polls that did not end it, a poll that reads a frame, with no
    callback or with a callback that returns true, adds one to the count
    and the loop goes on to its next iteration. *)
Theorem monitor_frame_continues w duration cb start_time w0 (k : nat)
    (n : Z) wk w1 msg w2 w3 :
  session_state (self w) = Started ->
  now w = (start_time, w0) ->
  monitor_polls k duration cb start_time 0 w0 = Some (n, wk) ->
  monitor_guard duration start_time wk = (true, w1) ->
  call_read 100 w1 = ((CANERR_NOERROR, msg), w2) ->
  (match cb with
   | None => w3 = w2
   | Some f => call_callback f msg w2 = (true, w3)
   end) ->
  forall fuel : nat,
    monitor (S k + fuel) duration cb w
    = monitor_loop fuel duration cb start_time (n + 1) w3.
Proof.
  intros Hs Hnow Hp Hg Hr Hc fuel.
  rewrite (monitor_started _ _ _ _ _ _ Hs Hnow).
  replace (S k + fuel)%nat with (k + S fuel)%nat by lia.
  rewrite (monitor_polls_loop _ _ _ _ _ _ _ _ Hp).
  cbn [monitor_loop]. rewrite Hg.
  destruct cb as [f|].
  - rewrite (monitor_body_frame _ _ _ _ _ _ _ Hr Hc). reflexivity.
  - subst w3. unfold monitor_body, bind at 1. rewrite Hr. reflexivity.
Qed.

(** [scan_channels] with a bound that is zero or negative probes nothing
    and returns the empty list. *)
Lemma scan_channels_nonpositive w (max_channels : Z) :
  max_channels <= 0 ->
  scan_channels max_channels w = ([], w).
Proof.
  intros H. unfold scan_channels. rewrite seqZ_nil by assumption.
  reflexivity.
Qed.

Lemma filter_fst_sublist {A B} (p : A * B -> bool) (l : list (A * B)) :
  map fst (List.filter p l) `sublist_of` map fst l.
Proof.
  induction l as [|x l IH]; cbn; [constructor|].
  destruct (p x); cbn; constructor; assumption.
Qed.

(** X11. Whatever the driver answers, the channels [scan_channels]
    returns lie in [0, max_channels), are pairwise distinct, and are at
    most [max_channels] many; with a bound that is zero or negative it
    probes nothing and returns the empty list. *)
Theorem scan_channels_bounds w (max_channels : Z) :
  let found := fst (scan_channels max_channels w) in
  Forall (fun c => 0 <= c < max_channels) found
  /\ NoDup found
  /\ (length found <= Z.to_nat max_channels)%nat
  /\ (max_channels <= 0 -> scan_channels max_channels w = ([], w)).
Proof.
  cbv zeta.
  cut (Forall (fun c => 0 <= c < max_channels)
         (fst (scan_channels max_channels w))
       /\ NoDup (fst (scan_channels max_channels w))
       /\ (length (fst (scan_channels max_channels w))
           <= Z.to_nat max_channels)%nat).
  { intros (H1 & H2 & H3). repeat split; try assumption.
    apply scan_channels_nonpositive. }
  unfold scan_channels.
  destruct (scan_loop_spec (seqZ 0 max_channels) [] w)
    as (t & _ & _ & Hch & Hres & _).
  rewrite Hres. cbn [app].
  pose proof (filter_fst_sublist (fun p : Z * Z => snd p =? 0)
                (omap probe_of t)) as Hsub.
  rewrite Hch in Hsub. split; [|split].
  - apply Forall_forall. intros c Hc.
    pose proof (elem_of_sublist _ _ _ Hc Hsub) as Hin.
    apply elem_of_seqZ in Hin. lia.
  - eapply sublist_NoDup; first [exact Hsub | apply NoDup_seqZ].
  - rewrite <- (length_seqZ 0 max_channels). apply sublist_length, Hsub.
Qed.

End MonitorScan.

Section Protocol.
Context {Env : Type} `{api : CANAPI Env} `{clock : Clock Env}.
Implicit Types (w : World Env) (s : KvaserCAN) (t : list event).

Lemma replay_app s t1 t2 :
  replay s (t1 ++ t2)
  = match replay s t1 with Some s' => replay s' t2 | None => None end.
Proof.
  revert s. induction t1 as [|e t1 IH]; intros s; cbn; [reflexivity|].
  destruct (accept s e); [apply IH | reflexivity].
Qed.


Lemma KvaserCAN_eta s :
  {| channel := channel s; is_initialized := is_initialized s;
     is_started := is_started s |} = s.
Proof. destruct s; reflexivity. Qed.






Lemma length_omap_le {A B} (f : A -> option B) (l : list A) :
  (length (omap f l) <= length l)%nat.
Proof.
  induction l as [|a l IH]; cbn; [lia|]. destruct (f a); cbn; lia.
Qed.

Lemma replay_probes s t :
  length (omap probe_of t) = length t -> replay s t = Some s.
Proof.
  induction t as [|e t IH]; [reflexivity|]. intros H.
  pose proof (length_omap_le probe_of t) as Hle.
  destruct e; cbn in H; try lia.
  cbn. apply IH. lia.
Qed.






End Protocol.

(** * Properties of the script *)

Section Script.
Context {Env : Type} `{api : CANAPI Env} `{clock : Clock Env}
        `{host : Host Env}.
Implicit Types (w : World Env) (cfg : Settings).

Lemma bytes_of_ints_ff (n : nat) :
  bytes_of_ints (replicate n 255) = Some (replicate n xff).
Proof.
  induction n as [|n IH]; [reflexivity|].
  cbn [replicate bytes_of_ints]. rewrite IH. reflexivity.
Qed.

(** What happens between two sends changes neither the session nor the
    trace. *)
Lemma idle_keeps w (b : bool) :
  let w' := snd (sleep (if b then snd (now w) else w)) in
  self w' = self w /\ trace w' = trace w.
Proof.
  cbv zeta. unfold sleep. cbn [snd self trace]. destruct b; [|auto].
  destruct (now w) as [t w0] eqn:Hn.
  destruct (now_trace _ _ _ Hn) as [Ht Hs]. cbn [snd]. auto.
Qed.

Lemma start_unfold w b :
  start b w =
  if is_initialized (self w) then
    let '(r, e') := api_start {| index := b |} (env w) in
    (r, {| self := {| channel := channel (self w); is_initialized := true;
                      is_started := (r =? CANERR_NOERROR)
                                    || is_started (self w) |};
           env := e';
           trace := trace w ++ [EvStart {| index := b |} r] |})
  else (-95, w).
Proof.
  destruct w as [[c i st] e t]. unfold start. run. cbn.
  destruct i; cbn; [|reflexivity].
  destruct (api_start _ e) as [r e']. cbn.
  destruct (r =? CANERR_NOERROR); reflexivity.
Qed.

(** The transmit loop, from any count on: it ends within the fuel that
    covers the sends left, leaves the session's fields alone, and adds to
    the trace nothing but writes of one and the same frame, of which only
    the last can have failed. *)
Lemma transmit_loop_run cfg (fuel : nat) :
  let bs := replicate (Z.to_nat (DLC cfg)) xff in
  let data := PInts (replicate (Z.to_nat (DLC cfg)) 255) in
  let frame := frame_of (ID cfg) bs false false in
  forall (count : Z) w,
    (Z.to_nat (TRANSMIT cfg - count) < fuel)%nat ->
    exists r w' (oks tl : list Z),
      transmit_loop fuel cfg data count w = Some (r, w')
      /\ self w' = self w
      /\ trace w' = trace w ++ map (EvWrite frame 0) (oks ++ tl)
      /\ (length (oks ++ tl) <= Z.to_nat (TRANSMIT cfg - count))%nat
      /\ Forall (fun st => 0 <= st) oks
      /\ (tl = [] \/ exists st, tl = [st] /\ st < 0)
      /\ (is_started (self w) = false ->
          oks ++ tl = [] /\ exists c, r = Returns c)
      /\ ((exists c, r = Returns c)
          \/ (r = Raises IndexError
              /\ (DATA_LEN < Nat.min (length bs) 8)%nat
              /\ oks ++ tl = [])).
Proof.
  intros bs data frame.
  induction fuel as [|fuel IH]; intros count w Hf; [lia|].
  cbn [transmit_loop].
  destruct (Z.ltb_spec count (TRANSMIT cfg)) as [Hlt|Hge].
  2:{ exists (Returns count), w, [], []. cbn. rewrite app_nil_r.
      repeat split; eauto; try lia. }
  destruct (is_started (self w)) eqn:Hst.
  - rewrite send_started_unfold by assumption.
    assert (Hb : to_bytes data = Some bs) by apply bytes_of_ints_ff.
    rewrite Hb.
    destruct (Nat.leb_spec (Nat.min (length bs) 8) DATA_LEN) as [Hcap|Hcap].
    + fold frame. destruct (api_write frame 0 (env w)) as [st e'] eqn:Ew.
      set (w1 := {| self := self w; env := e';
                    trace := trace w ++ [EvWrite frame 0 st] |}).
      destruct (Z.ltb_spec st 0) as [Hneg|Hpos].
      * exists (Returns count), w1, [], [st]. cbn.
        split; [reflexivity|]. split; [reflexivity|].
        split; [reflexivity|]. split; [lia|]. split; [constructor|].
        split; [right; eauto|]. split; [congruence|]. left. eauto.
      * match goal with |- context [transmit_loop fuel cfg data _ ?x] =>
          set (w3 := x) end.
        destruct (idle_keeps w1 ((count + 1) mod 1000 =? 0)) as [Hs3 Ht3].
        fold w3 in Hs3, Ht3.
        destruct (IH (count + 1) w3) as
          (r & w' & oks & tl & Hrun & Hs & Ht & Hlen & Hok & Htl & _ & Hr);
          [lia|].
        exists r, w', (st :: oks), tl. rewrite Hrun.
        split; [reflexivity|]. split; [rewrite Hs, Hs3; reflexivity|].
        split.
        { rewrite Ht, Ht3. subst w1. cbn [trace].
          rewrite <- app_assoc. reflexivity. }
        split; [cbn [app length]; lia|].
        split; [constructor; assumption|]. split; [exact Htl|].
        split; [intros H; congruence|].
        destruct Hr as [Hr|(Hr & Hc & _)]; [left; exact Hr | lia].
    + exists (Raises IndexError), w, [], []. cbn. rewrite app_nil_r.
      split; [reflexivity|]. split; [reflexivity|].
      split; [reflexivity|]. split; [lia|]. split; [constructor|].
      split; [left; reflexivity|]. split; [congruence|]. right. auto.
  - assert (Hsend : send (ID cfg) data false false 0 w = (Returns (-95), w)).
    { unfold send. run. rewrite Hst. reflexivity. }
    rewrite Hsend. cbn.
    exists (Returns count), w, [], []. cbn. rewrite app_nil_r.
    repeat split; eauto; try lia.
Qed.

(** The calls [main] makes after the scan, case by case. *)
Lemma main_with_shape cfg (e : Env) :
  let found := fst (scan_channels 8 (init_world e)) in
  let wscan := snd (scan_channels 8 (init_world e)) in
  let bs := replicate (Z.to_nat (DLC cfg)) xff in
  let frame := frame_of (ID cfg) bs false false in
  let c := if existsb (Z.eqb (CHANNEL cfg)) found then CHANNEL cfg
           else hd 0 found in
  let mode := {| byte := CANMODE_DEFAULT; bits_mon := 0 |} in
  let rate := {| index := BAUDRATE cfg |} in
  exists r w tail,
    main_with cfg e = Some (r, w)
    /\ self w = unbound
    /\ trace w = trace wscan ++ tail
    /\ ((found = [] /\ tail = [] /\ r = Returns 1)
        \/ (exists ro,
              found <> [] /\ ro <> 0
              /\ tail = [EvInit c mode ro] /\ r = Returns 1)
        \/ (exists rs rx,
              found <> [] /\ rs <> 0
              /\ tail = [EvInit c mode 0; EvStart rate rs; EvExit rx]
              /\ r = Returns (if rs <? 0 then 1 else 0))
        \/ (exists oks tl rr rx,
              found <> []
              /\ tail = [EvInit c mode 0; EvStart rate 0]
                        ++ map (EvWrite frame 0) (oks ++ tl)
                        ++ [EvReset rr; EvExit rx]
              /\ (length (oks ++ tl) <= Z.to_nat (TRANSMIT cfg))%nat
              /\ Forall (fun st => 0 <= st) oks
              /\ (tl = [] \/ exists st, tl = [st] /\ st < 0)
              /\ (r = Returns 0
                  \/ (r = Raises IndexError
                      /\ (DATA_LEN < Nat.min (length bs) 8)%nat
                      /\ oks ++ tl = [])))).
Proof.
  cbv zeta. unfold main_with.
  pose proof (scan_channels_self (init_world e) 8) as Hself.
  destruct (scan_channels 8 (init_world e)) as [found wscan].
  cbn [fst snd] in *. change (self (init_world e)) with unbound in Hself.
  destruct found as [|first rest].
  { exists (Returns 1), wscan, []. rewrite app_nil_r. auto 10. }
  cbn [hd].
  set (c := if existsb (Z.eqb (CHANNEL cfg)) (first :: rest)
            then CHANNEL cfg else first).
  rewrite open_unfold. rewrite Hself. cbn [is_initialized unbound flag].
  cbv zeta. rewrite Hself.
  destruct (api_init c _ (env wscan)) as [ro e1].
  assert (Hne : first :: rest <> []) by discriminate.
  destruct (Z.ltb_spec ro 0) as [Hro|Hro].
  { eexists _, _, _. split; [reflexivity|]. cbn [self trace].
    destruct (Z.eqb_spec ro CANERR_NOERROR) as [->|_]; [discriminate Hro|].
    split; [reflexivity|]. split; [reflexivity|].
    right; left. exists ro. repeat split; auto; lia. }
  rewrite start_unfold. cbn [self env trace].
  destruct (Z.eqb_spec ro CANERR_NOERROR) as [->|Hro0].
  2:{ cbn [is_initialized unbound]. cbn [Z.ltb Z.compare].
      rewrite close_unfold. cbn [self env trace is_started is_initialized
                                 unbound channel].
      eexists (Returns 1), _, [EvInit c _ ro].
      split; [reflexivity|]. cbn [self trace].
      split; [reflexivity|]. split; [rewrite !app_nil_r; reflexivity|].
      right; left. exists ro. repeat split; auto. }
  cbn [is_initialized is_started channel unbound].
  destruct (api_start _ e1) as [rs e2]. rewrite orb_false_r.
  destruct (Z.ltb_spec rs 0) as [Hrs|Hrs].
  { rewrite close_unfold. cbn [self env trace is_started is_initialized].
    destruct (Z.eqb_spec rs CANERR_NOERROR) as [->|_]; [discriminate Hrs|].
    destruct (api_exit e2) as [rx e3].
    eexists _, _, _. split; [reflexivity|]. cbn [self trace].
    split; [reflexivity|].
    split; [cbn [app]; rewrite <- !app_assoc; reflexivity|].
    right; right; left. exists rs, rx.
    destruct (Z.ltb_spec rs 0); [|lia]. repeat split; auto; lia. }
  match goal with |- context [now ?x] => set (ws := x) end.
  destruct (now ws) as [t0 wn] eqn:Hn.
  destruct (now_trace _ _ _ Hn) as [Htn Hsn].
  destruct (transmit_loop_run cfg (S (Z.to_nat (TRANSMIT cfg))) 0 wn)
    as (r0 & wl & oks & tl & Hrun & Hsl & Htl & Hlen & Hok & Htail & Hns & Hr);
    [rewrite Z.sub_0_r; lia|].
  rewrite Hrun. rewrite Z.sub_0_r in Hlen.
  destruct (now wl) as [t1 wl'] eqn:Hn'.
  destruct (now_trace _ _ _ Hn') as [Htn' Hsn'].
  rewrite close_unfold.
  assert (Hs' : self wl' = self ws) by congruence.
  assert (Ht' : trace wl' = trace ws
                ++ map (EvWrite (frame_of (ID cfg)
                                   (replicate (Z.to_nat (DLC cfg)) xff)
                                   false false) 0) (oks ++ tl))
    by congruence.
  rewrite Hs', Ht'. subst ws. cbn [self env trace is_started is_initialized].
  rewrite Hsn in Hns. cbn [self is_started] in Hns.
  destruct (Z.eqb_spec rs CANERR_NOERROR) as [->|Hrs0].
  - destruct (api_reset (env wl')) as [rr e3].
    destruct (api_exit e3) as [rx e4].
    eexists _, _, _. split; [reflexivity|]. cbn [self trace].
    split; [reflexivity|].
    split; [rewrite <- !app_assoc; reflexivity|].
    right; right; right. exists oks, tl, rr, rx.
    split; [assumption|]. split; [reflexivity|]. split; [assumption|].
    split; [assumption|]. split; [assumption|].
    destruct Hr as [[cnt ->]|(-> & Hc & Hnil)]; [left; reflexivity|].
    right. auto.
  - destruct (Hns eq_refl) as [Hnil [cnt ->]]. rewrite Hnil. cbn [map].
    rewrite app_nil_r.
    destruct (api_exit (env wl')) as [rx e3].
    eexists _, _, _. split; [reflexivity|]. cbn [self trace].
    split; [reflexivity|].
    split; [rewrite <- !app_assoc; reflexivity|].
    right; right; left. exists rs, rx.
    destruct (Z.ltb_spec rs 0); [lia|]. repeat split; auto.
Qed.

Lemma written_app (t1 t2 : list event) :
  written (t1 ++ t2) = written t1 ++ written t2.
Proof. apply omap_app. Qed.

Lemma bound_channels_app (t1 t2 : list event) :
  bound_channels (t1 ++ t2) = bound_channels t1 ++ bound_channels t2.
Proof. apply omap_app. Qed.

(** A trace of probes holds no other call. *)
Lemma probes_only (t : list event) :
  length (omap probe_of t) = length t ->
  written t = [] /\ bound_channels t = [] /\ List.filter is_init t = []
  /\ count_events is_exit t = 0
  /\ Forall (fun ev => forall b rs, ev = EvStart b rs -> rs < 0) t.
Proof.
  induction t as [|ev t IH]; intros H.
  - repeat split; constructor.
  - pose proof (length_omap_le probe_of t) as Hle.
    destruct ev; cbn in H; try lia.
    destruct IH as (H1 & H2 & H3 & H4 & H5); [lia|].
    repeat split; try assumption.
    constructor; [discriminate | assumption].
Qed.

(** A trace of writes of one frame. *)
Lemma writes_only (frame : Message) (sts : list Z) :
  let t := map (EvWrite frame 0) sts in
  written t = map (pair frame) sts /\ bound_channels t = []
  /\ List.filter is_init t = [] /\ count_events is_exit t = 0
  /\ Forall (fun ev => forall b rs, ev = EvStart b rs -> rs < 0) t
  /\ (forall s, is_started s = true -> replay s t = Some s).
Proof.
  cbv zeta. induction sts as [|st sts (H1 & H2 & H3 & H4 & H5 & H6)].
  - repeat split; try constructor.
  - split; [|split; [|split; [|split; [|split]]]]; try assumption.
    + cbn [map].
      change (written (EvWrite frame 0 st :: map (EvWrite frame 0) sts))
        with ((frame, st) :: written (map (EvWrite frame 0) sts)).
      rewrite H1. reflexivity.
    + constructor; [discriminate | assumption].
    + intros s Hs. cbn. rewrite Hs. apply H6, Hs.
Qed.

Lemma scan_probes (e : Env) (n : Z) :
  let t := trace (snd (scan_channels n (init_world e))) in
  length (omap probe_of t) = length t
  /\ fst (scan_channels n (init_world e))
     = map fst (List.filter (fun p => snd p =? 0) (omap probe_of t)).
Proof.
  cbv zeta. unfold scan_channels.
  destruct (scan_loop_spec (seqZ 0 n) [] (init_world e))
    as (t & Ht & Hlen & _ & Hres & _).
  cbn [trace init_world app] in Ht. rewrite Ht, Hres. auto.
Qed.

Lemma close_unbound w : self w = unbound -> del w = (tt, w).
Proof.
  intros H. unfold del, bind. rewrite close_unfold, H. cbn.
  rewrite app_nil_r. destruct w as [s e' t]. cbn in *. subst s. reflexivity.
Qed.

(** X14. [main] always ends, and on every path it leaves the hardware
    released: the session it built is unbound when [main] returns or
    raises, every call it made was in the order the driver expects, at
    most one channel was bound and each bound channel was released by
    exactly one [exit]; the destructor that runs when the session object
    is dropped then has nothing left to do. *)
Theorem main_ends_closed cfg (e : Env) :
  exists r w,
    main_with cfg e = Some (r, w)
    /\ self w = unbound
    /\ replay unbound (trace w) = Some unbound
    /\ (length (bound_channels (trace w)) <= 1)%nat
    /\ count_events is_exit (trace w)
       = Z.of_nat (length (bound_channels (trace w)))
    /\ del w = (tt, w).
Proof.
  destruct (main_with_shape cfg e) as (r & w & tail & Hm & Hs & Ht & Hc).
  destruct (scan_probes e 8) as [Hp _].
  destruct (probes_only _ Hp) as (_ & Hb & _ & Hx & _).
  pose proof (replay_probes unbound _ Hp) as Hr.
  exists r, w. split; [exact Hm|]. split; [exact Hs|].
  cut (replay unbound (trace w) = Some unbound
       /\ (length (bound_channels (trace w)) <= 1)%nat
       /\ count_events is_exit (trace w)
          = Z.of_nat (length (bound_channels (trace w)))).
  { intros (H1 & H2 & H3). repeat split; try assumption.
    apply close_unbound. exact Hs. }
  rewrite Ht, replay_app, Hr, bound_channels_app, Hb, count_events_app, Hx.
  cbn [app]. rewrite Z.add_0_l.
  destruct Hc as [(_ & -> & _)|[(ro & _ & Hro & -> & _)
    |[(rs & rx & _ & Hrs & -> & _)|(oks & tl & rr & rx & _ & -> & _)]]].
  - repeat split. cbn. lia.
  - cbn. destruct (Z.eqb_spec ro CANERR_NOERROR); [contradiction|].
    repeat split. cbn. lia.
  - cbn. destruct (Z.eqb_spec rs CANERR_NOERROR); [contradiction|].
    repeat split. cbn. lia.
  - destruct (writes_only
                (frame_of (ID cfg) (replicate (Z.to_nat (DLC cfg)) xff)
                   false false) (oks ++ tl))
      as (_ & Hwb & _ & Hwx & _ & Hwr).
    cbn [app replay accept is_initialized is_started unbound orb Z.eqb
         CANERR_NOERROR].
    rewrite replay_app, Hwr by reflexivity.
    change (EvInit ?c ?m 0 :: EvStart ?b 0 :: ?l)
      with ([EvInit c m 0; EvStart b 0] ++ l).
    rewrite !bound_channels_app, !count_events_app, Hwb, Hwx.
    repeat split. cbn. lia.
Qed.

(** X15. [main] returns 1, returns 0 or lets the [IndexError] of [send]
    through.  It returns 1 exactly when the controller was never started
    with a status that is not negative: no channel found, [open] not
    successful, or [start] refused; no frame is written then.  The
    exception needs a message buffer shorter than the payload and occurs
    before any frame is written. *)
Theorem main_return_code cfg (e : Env) :
  exists r w,
    main_with cfg e = Some (r, w)
    /\ (r = Returns 0 \/ r = Returns 1 \/ r = Raises IndexError)
    /\ (r = Returns 1
        <-> Forall (fun ev => forall b rs, ev = EvStart b rs -> rs < 0)
                   (trace w))
    /\ (r = Returns 1 -> written (trace w) = [])
    /\ (r = Raises IndexError ->
        (DATA_LEN < Nat.min (Z.to_nat (DLC cfg)) 8)%nat
        /\ written (trace w) = []).
Proof.
  destruct (main_with_shape cfg e) as (r & w & tail & Hm & Hs & Ht & Hc).
  destruct (scan_probes e 8) as [Hp _].
  destruct (probes_only _ Hp) as (Hw & _ & _ & _ & Hst).
  exists r, w. split; [exact Hm|].
  rewrite Ht, written_app, Hw. cbn [app]. setoid_rewrite Forall_app.
  destruct Hc as [(_ & -> & ->)|[(ro & _ & Hro & -> & ->)
    |[(rs & rx & _ & Hrs & -> & ->)
     |(oks & tl & rr & rx & _ & -> & _ & _ & _ & Hr)]]].
  - split; [auto|]. split; [|split; [reflexivity | discriminate]].
    split; [intros _; split; [exact Hst | constructor] | reflexivity].
  - split; [auto|]. split; [|split; [reflexivity | discriminate]].
    split; [|reflexivity]. intros _. split; [exact Hst|].
    constructor; [discriminate | constructor].
  - destruct (Z.ltb_spec rs 0) as [Hneg|Hpos].
    + split; [auto|]. split; [|split; [reflexivity | discriminate]].
      split; [|reflexivity]. intros _. split; [exact Hst|].
      constructor; [discriminate|].
      constructor; [intros b rs' [= _ <-]; exact Hneg|].
      constructor; [discriminate | constructor].
    + split; [auto|]. split; [|split; discriminate].
      split; [discriminate|]. intros [_ H].
      inversion H as [|? ? _ H']; subst. inversion H' as [|? ? H2 _]; subst.
      specialize (H2 _ _ eq_refl). lia.
  - assert (Hno : ~ (Forall (fun ev => forall b rs, ev = EvStart b rs -> rs < 0)
                       (trace (snd (scan_channels 8 (init_world e))))
                     /\ Forall (fun ev => forall b rs,
                                  ev = EvStart b rs -> rs < 0)
                          ([EvInit
                              (if existsb (Z.eqb (CHANNEL cfg))
                                    (fst (scan_channels 8 (init_world e)))
                               then CHANNEL cfg
                               else hd 0 (fst (scan_channels 8 (init_world e))))
                              {| byte := CANMODE_DEFAULT; bits_mon := 0 |} 0;
                            EvStart {| index := BAUDRATE cfg |} 0]
                           ++ map (EvWrite
                                     (frame_of (ID cfg)
                                        (replicate (Z.to_nat (DLC cfg)) xff)
                                        false false) 0) (oks ++ tl)
                           ++ [EvReset rr; EvExit rx]))).
    { intros [_ H]. cbn [app] in H.
      inversion H as [|? ? _ H']; subst. inversion H' as [|? ? H2 _]; subst.
      specialize (H2 _ _ eq_refl). lia. }
    destruct Hr as [->|(-> & Hcap & Hnil)].
    + split; [auto|]. split; [|split; discriminate].
      split; [discriminate | intros H; contradiction].
    + split; [auto|]. split; [|split; [discriminate|]].
      * split; [discriminate | intros H; contradiction].
      * intros _. rewrite length_replicate in Hcap. split; [exact Hcap|].
        rewrite Hnil. reflexivity.
Qed.

(** X16. Every frame [main] writes is the same one: the identifier [ID],
    standard format, no remote request, FD flags cleared, dlc
    [min (DLC, 8)] and that many bytes 0xFF.  It writes at most [TRANSMIT]
    frames and stops at the first write that fails: only the last write
    can have returned a negative status. *)
Theorem main_frames cfg (e : Env) :
  let n := Nat.min (Z.to_nat (DLC cfg)) 8 in
  let frame := frame_of (ID cfg) (replicate (Z.to_nat (DLC cfg)) xff)
                 false false in
  exists r w,
    main_with cfg e = Some (r, w)
    /\ Forall (fun p => fst p = frame) (written (trace w))
    /\ (length (written (trace w)) <= Z.to_nat (TRANSMIT cfg))%nat
    /\ (exists oks tl,
          map snd (written (trace w)) = oks ++ tl
          /\ Forall (fun st => 0 <= st) oks
          /\ (tl = [] \/ exists st, tl = [st] /\ st < 0))
    /\ msg_id frame = ID cfg
    /\ msg_dlc frame = Z.of_nat n
    /\ take n (msg_data frame) = replicate n xff
    /\ msg_flags frame
       = {| xtd := 0; rtr := 0; fdf := 0; brs := 0; esi := 0 |}.
Proof.
  intros n frame.
  destruct (main_with_shape cfg e) as (r & w & tail & Hm & Hs & Ht & Hc).
  destruct (scan_probes e 8) as [Hp _].
  destruct (probes_only _ Hp) as (Hw & _).
  exists r, w. split; [exact Hm|].
  rewrite Ht, written_app, Hw. cbn [app].
  assert (Hframe : msg_id frame = ID cfg /\ msg_dlc frame = Z.of_nat n
                   /\ take n (msg_data frame) = replicate n xff
                   /\ msg_flags frame
                      = {| xtd := 0; rtr := 0; fdf := 0; brs := 0;
                           esi := 0 |}).
  { subst frame. unfold frame_of. cbn [msg_id msg_dlc msg_data msg_flags flag].
    rewrite length_replicate. fold n. repeat split.
    rewrite take_app_length'
      by (rewrite length_take, length_replicate; subst n; lia).
    rewrite take_replicate. f_equal. subst n. lia. }
  assert (Hnone : Forall (fun p : Message * Z => fst p = frame) []
                  /\ (length (@nil (Message * Z)) <= Z.to_nat (TRANSMIT cfg))%nat
                  /\ exists oks tl : list Z,
                      map snd (@nil (Message * Z)) = oks ++ tl
                      /\ Forall (fun st => 0 <= st) oks
                      /\ (tl = [] \/ exists st, tl = [st] /\ st < 0)).
  { split; [constructor|]. split; [cbn; lia|].
    exists [], []. repeat split; auto. }
  destruct Hc as [(_ & -> & _)|[(ro & _ & _ & -> & _)
    |[(rs & rx & _ & _ & -> & _)
     |(oks & tl & rr & rx & _ & -> & Hlen & Hok & Htl & _)]]];
    try (cbn; tauto).
  destruct (writes_only frame (oks ++ tl)) as (Hww & _).
  fold frame.
  rewrite !written_app, Hww.
  change (written [EvInit ?c ?m 0; EvStart ?b 0]) with (@nil (Message * Z)).
  change (written [EvReset rr; EvExit rx]) with (@nil (Message * Z)).
  cbn [app]. rewrite app_nil_r.
  split; [|split; [|split; [|exact Hframe]]].
  - apply Forall_forall. intros p Hin. apply list_elem_of_In in Hin.
    apply in_map_iff in Hin as (st & <- & _). reflexivity.
  - rewrite length_map. exact Hlen.
  - exists oks, tl. rewrite map_map. cbn [snd]. rewrite map_id. auto.
Qed.

Lemma existsb_eqb_In (x : Z) (l : list Z) :
  existsb (Z.eqb x) l = true <-> In x l.
Proof.
  rewrite existsb_exists. split.
  - intros (y & Hin & Heq). apply Z.eqb_eq in Heq. subst. exact Hin.
  - intros Hin. exists x. split; [exact Hin | apply Z.eqb_refl].
Qed.

(** X17. [main] binds no channel the scan did not report in the same run.
    When the scan finds nothing the driver's [init] is not called.
    Otherwise it is called exactly once, on the configured [CHANNEL] when
    the scan reported it and on the first channel reported when not. *)
Theorem main_channel cfg (e : Env) :
  let found := fst (scan_channels 8 (init_world e)) in
  exists r w,
    main_with cfg e = Some (r, w)
    /\ found
       = map fst (List.filter (fun p => snd p =? 0)
                    (omap probe_of (trace w)))
    /\ (found = [] -> List.filter is_init (trace w) = [])
    /\ (found <> [] ->
        exists c mode ro,
          List.filter is_init (trace w) = [EvInit c mode ro]
          /\ In c found
          /\ (In (CHANNEL cfg) found -> c = CHANNEL cfg)
          /\ (~ In (CHANNEL cfg) found -> hd_error found = Some c)).
Proof.
  intros found.
  destruct (main_with_shape cfg e) as (r & w & tail & Hm & Hs & Ht & Hc).
  destruct (scan_probes e 8) as [Hp Hfound].
  destruct (probes_only _ Hp) as (_ & _ & Hi & _).
  fold found in Hc, Hfound.
  set (c := if existsb (Z.eqb (CHANNEL cfg)) found then CHANNEL cfg
            else hd 0 found) in *.
  assert (Hcin : found <> [] ->
                 In c found
                 /\ (In (CHANNEL cfg) found -> c = CHANNEL cfg)
                 /\ (~ In (CHANNEL cfg) found -> hd_error found = Some c)).
  { intros Hne. subst c.
    destruct (existsb (Z.eqb (CHANNEL cfg)) found) eqn:Ex.
    - apply existsb_eqb_In in Ex. repeat split; auto. contradiction.
    - assert (Hnin : ~ In (CHANNEL cfg) found).
      { intros Hin. apply existsb_eqb_In in Hin. congruence. }
      destruct found as [|first rest]; [contradiction|].
      cbn. repeat split; auto. contradiction. }
  assert (Hwr : forall sts : list Z, forall frame,
             omap probe_of (map (EvWrite frame 0) sts) = []
             /\ List.filter is_init (map (EvWrite frame 0) sts) = []).
  { intros sts frame. induction sts as [|st sts [IH1 IH2]]; [auto|].
    split; [exact IH1 | exact IH2]. }
  exists r, w. split; [exact Hm|].
  rewrite Ht, omap_app, (List.filter_app is_init), Hi. cbn [app].
  destruct Hc as [(Hnil & -> & _)|[(ro & Hne & _ & -> & _)
    |[(rs & rx & Hne & _ & -> & _)
     |(oks & tl & rr & rx & Hne & -> & _)]]].
  - rewrite app_nil_r. split; [exact Hfound|].
    split; [reflexivity | contradiction].
  - cbn [omap probe_of List.filter is_init]. rewrite app_nil_r.
    split; [exact Hfound|]. split; [contradiction|].
    intros _. eexists c, _, ro. split; [reflexivity | auto].
  - cbn [omap probe_of List.filter is_init]. rewrite app_nil_r.
    split; [exact Hfound|]. split; [contradiction|].
    intros _. eexists c, _, 0. split; [reflexivity | auto].
  - destruct (Hwr (oks ++ tl)
                (frame_of (ID cfg) (replicate (Z.to_nat (DLC cfg)) xff)
                   false false)) as [Hw1 Hw2].
    rewrite !omap_app, !List.filter_app, Hw1, Hw2.
    cbn [omap probe_of List.filter is_init app]. rewrite app_nil_r.
    split; [exact Hfound|]. split; [contradiction|].
    intros _. eexists c, _, 0. split; [reflexivity | auto].
Qed.

End Script.

Section ScanStateless.
Context {Env : Type} `{api : CANAPI Env}.
Implicit Types (w : World Env).

Lemma scan_loop_stateless w (probe : Z -> Z * Z) :
  (forall c m, api_test c m (env w) = (probe c, env w)) ->
  forall channels available t,
    let r := scan_loop channels available
               {| self := self w; env := env w; trace := t |} in
    fst r = available ++ List.filter (fun c => snd (probe c) =? 0) channels
    /\ env (snd r) = env w.
Proof.
  intros Hp. induction channels as [|c cs IH]; intros available t.
  - cbn. rewrite app_nil_r. auto.
  - cbv zeta. cbn [scan_loop]. run. cbn [env self trace]. rewrite Hp.
    cbn [fst snd].
    match goal with |- context [scan_loop cs ?a {| self := _; env := _;
                                                   trace := ?t' |}] =>
      destruct (IH a t') as [H1 H2] end.
    rewrite H1, H2. split; [|reflexivity]. cbn [List.filter].
    destruct (snd (probe c) =? 0); rewrite <- ?app_assoc; reflexivity.
Qed.

(** X12. When probing does not change the driver (its answer depends on
    the channel alone), [scan_channels] returns the channels of
    [range(max_channels)] whose state code is 0, leaves the driver as it
    was, and returns the same list when called again. *)
Theorem scan_channels_stateless w (max_channels : Z) (probe : Z -> Z * Z) :
  (forall c m, api_test c m (env w) = (probe c, env w)) ->
  let found := List.filter (fun c => snd (probe c) =? 0)
                 (seqZ 0 max_channels) in
  fst (scan_channels max_channels w) = found
  /\ env (snd (scan_channels max_channels w)) = env w
  /\ fst (scan_channels max_channels (snd (scan_channels max_channels w)))
     = found.
Proof.
  intros Hp found. unfold scan_channels.
  destruct (scan_loop_stateless w probe Hp (seqZ 0 max_channels) []
              (trace w)) as [H1 H2].
  cbn [app] in H1. destruct w as [s e t]. cbn [self env trace] in *.
  split; [exact H1|]. split; [exact H2|].
  destruct (scan_loop (seqZ 0 max_channels) []
              {| self := s; env := e; trace := t |}) as [l [s' e' t']].
  cbn [snd env] in *. subst e'.
  destruct (scan_loop_stateless {| self := s'; env := e; trace := t' |}
              probe Hp (seqZ 0 max_channels) [] t') as [H3 _].
  exact H3.
Qed.

End ScanStateless.

(** * The further properties on the scripted driver *)

Section ScriptedRest.

Lemma not_initialized_refused_witness :
  let w := closed_on fake_ok in
  start (-2) w = (-95, w)
  /\ get_status w = ((-95, None), w)
  /\ get_busload w = ((-95, busload_zero, None), w)
  /\ get_bitrate w = ((-95, None, None), w).
Proof.
  intros w. apply not_initialized_refused. reflexivity.
Defined.

Lemma queries_before_start_witness :
  let w := initialized_on fake_ok in
  let data := PInts [1; 2; 3] in
  fst (get_status w) = fst (api_status (env w))
  /\ fst (get_busload w) = fst (api_busload (env w))
  /\ fst (get_bitrate w) = fst (api_bitrate (env w))
  /\ self (snd (get_status w)) = self w
  /\ self (snd (get_busload w)) = self w
  /\ self (snd (get_bitrate w)) = self w
  /\ fst (send 688 data false false 0 w) = Returns (-95)
  /\ fst (receive 0 w) = (-95, None)
  /\ monitor 5 30 None w = Some (-95, w).
Proof.
  intros w data. apply queries_before_start. reflexivity.
Defined.

(** A failed [open] on a started session leaves it unbound. *)
Lemma open_result_witness :
  let w := started_on fake_reset_fails in
  let r := fst (open 1 true w) in
  let w' := snd (open 1 true w) in
  let mode := {| byte := CANMODE_DEFAULT; bits_mon := flag true |} in
  last (trace w') = Some (EvInit 1 mode r)
  /\ (r = CANERR_NOERROR ->
      self w' = {| channel := 1; is_initialized := true;
                   is_started := false |})
  /\ (r <> CANERR_NOERROR ->
      self w' = {| channel := -1; is_initialized := false;
                   is_started := false |})
  /\ (is_initialized (self w) = false -> added w w' = [EvInit 1 mode r]).
Proof.
  intros w. apply (open_result w 1 true).
  split; cbn; [reflexivity | discriminate].
Defined.

Lemma send_outcome_witness :
  let w := started_on fake_ok in
  let data := PInts [1; 256] in
  (to_bytes data = None
   <-> exists l, data = PInts l /\ ~ Forall (fun x => 0 <= x < 256) l)
  /\ (to_bytes data = None ->
      send 688 data true false 0 w = (Raises ValueError, w))
  /\ (forall bs, to_bytes data = Some bs ->
      (DATA_LEN < Nat.min (length bs) 8)%nat ->
      send 688 data true false 0 w = (Raises IndexError, w))
  /\ (forall bs, to_bytes data = Some bs ->
      (Nat.min (length bs) 8 <= DATA_LEN)%nat ->
      exists msg st e',
        api_write msg 0 (env w) = (st, e')
        /\ send 688 data true false 0 w
           = (Returns st,
              {| self := self w; env := e';
                 trace := trace w ++ [EvWrite msg 0 st] |})
        /\ msg_id msg = 688
        /\ msg_flags msg
           = {| xtd := flag true; rtr := flag false;
                fdf := 0; brs := 0; esi := 0 |}).
Proof.
  intros w data. exact (send_outcome w 688 data true false 0 eq_refl).
Defined.

Example send_extended_remote :
  added (started_on fake_ok)
        (snd (send 305419896 (PBytes []) true true 50 (started_on fake_ok)))
  = [EvWrite {| msg_id := 305419896;
                msg_flags := {| xtd := 1; rtr := 1; fdf := 0; brs := 0;
                                esi := 0 |};
                msg_dlc := 0;
                msg_data := replicate 64 x00 |} 50 0].
Proof. reflexivity. Qed.


(** With duration 3 the third test of the condition ends the loop. *)
Lemma monitor_duration_elapsed_witness :
  let w := started_on fake_bus in
  let wk := default bus_begun
              (snd <$> monitor_polls 2 3 None bus_t0 0 bus_begun) in
  let w1 := snd (monitor_guard 3 bus_t0 wk) in
  monitor 3 3 None w = Some (1, w1)
  /\ added w w1 = added w wk
  /\ 1 = count_events is_frame (added w wk).
Proof.
  intros w wk w1.
  apply (monitor_duration_elapsed w 3 None bus_t0 bus_begun 2 1 wk w1 3).
  - reflexivity.
  - reflexivity.
  - vm_compute. reflexivity.
  - vm_compute. reflexivity.
  - lia.
Defined.

Lemma monitor_frame_continues_witness :
  let w := started_on fake_bus in
  let w2 := bus_read 1 None in
  monitor (2 + 3) 10 None w = monitor_loop 3 10 None bus_t0 (0 + 1) w2.
Proof.
  intros w w2.
  apply (monitor_frame_continues w 10 None bus_t0 bus_begun 1 0
           (bus_polled 1 None) (bus_tested 1 None) (Some frame0) w2 w2).
  - reflexivity.
  - reflexivity.
  - vm_compute. reflexivity.
  - vm_compute. reflexivity.
  - vm_compute. reflexivity.
  - reflexivity.
Defined.

(** The spec's example: channels 2 and 5 free among 8. *)
Lemma scan_channels_stateless_witness :
  let w := closed_on fake_ok in
  let found := List.filter (fun c => snd (fst (fake_test c fake_ok)) =? 0)
                 (seqZ 0 8) in
  fst (scan_channels 8 w) = found
  /\ env (snd (scan_channels 8 w)) = env w
  /\ fst (scan_channels 8 (snd (scan_channels 8 w))) = found.
Proof.
  intros w.
  apply (scan_channels_stateless w 8 (fun c => fst (fake_test c fake_ok))).
  intros c m. cbn. unfold fake_test.
  destruct (bool_decide (c ∈ f_free fake_ok)); reflexivity.
Defined.

Example scan_twice :
  fst (scan_channels 8 (snd (scan_channels 8 (closed_on fake_ok)))) = [2; 5].
Proof. vm_compute. reflexivity. Qed.


(** A write before [start], or a second [init] without [exit], is what the
    replay refuses. *)
Example replay_refuses :
  replay unbound [EvInit 0 {| byte := 0; bits_mon := 0 |} 0;
                  EvWrite frame0 0 0] = None
  /\ replay unbound [EvInit 0 {| byte := 0; bits_mon := 0 |} 0;
                     EvInit 1 {| byte := 0; bits_mon := 0 |} 0] = None
  /\ replay unbound [EvInit 0 {| byte := 0; bits_mon := 0 |} 0;
                     EvStart {| index := -2 |} 0; EvExit 0] = None.
Proof. repeat split; reflexivity. Qed.

(** The script on the scripted driver: channel 0 is not free, so the
    first free channel, 2, is opened; three frames are sent; the channel
    is stopped and released. *)
Example main_on_fake :
  (fun x => (fst x, self (snd x), bound_channels (trace (snd x)),
             map snd (written (trace (snd x)))))
    <$> main_with small_settings fake_ok
  = Some (Returns 0, unbound, [2], [0; 0; 0])
  /\ (fun x => (fst x, List.filter is_exit (trace (snd x))))
       <$> main_with small_settings fake_ok
     = Some (Returns 0, [EvExit 0]).
Proof. split; vm_compute; reflexivity. Qed.

(** When the third write fails the script stops there, closes and still
    returns 0; when no channel is free it returns 1 after the scan. *)
Example main_on_failures :
  (fun x => (fst x, self (snd x), map snd (written (trace (snd x)))))
    <$> @main_with Fake fake_third_write_fails_api fake_clock fake_host
          {| CHANNEL := 5; TRANSMIT := 10; ID := 688; DLC := 2;
             BAUDRATE := -2 |} fake_ok
  = Some (Returns 0, unbound, [0; 0; -20])
  /\ (fun x => (fst x, length (trace (snd x))))
       <$> main_with small_settings fake_bus
     = Some (Returns 1, 8%nat).
Proof. split; vm_compute; reflexivity. Qed.

(** The frame of the script as it is: identifier 0x2B0, eight bytes
    0xFF. *)
Example main_frame :
  frame_of (ID main_settings) (replicate (Z.to_nat (DLC main_settings)) xff)
    false false
  = {| msg_id := 688;
       msg_flags := {| xtd := 0; rtr := 0; fdf := 0; brs := 0; esi := 0 |};
       msg_dlc := 8;
       msg_data := replicate 8 xff ++ replicate 56 x00 |}.
Proof. reflexivity. Qed.

End ScriptedRest.
